(** * water_monitor: the Arduino sketch [code.ino], embedded and verified

    The sketch samples three analog sensors (pH, turbidity, TDS), turns the
    raw samples into physical values, classifies them, and reports on two
    serial ports; a command interpreter and a clock-gated scheduler decide
    when an acquisition happens.

    Machine model (the sketch targets a 5 V AVR board: 10-bit ADC,
    [SoftwareSerial] on pins 3/2):
    - [float] and [double] are both IEEE 754 binary32 on AVR, so every
      floating-point literal and operation of the sketch is a binary32 one,
      rounded to nearest-even.  They are modelled by the Standard Library's
      [SpecFloat] operations at precision 24 and maximal exponent 128;
    - [int] values coming from the ADC are modelled as [Z];
    - [unsigned long] is 32 bits wide: its subtraction wraps modulo 2^32;
    - the Arduino [String] is modelled by [string];
    - the globals of the sketch are a record threaded through a small
      state-and-output monad; what the hardware returns during one pass
      through [loop] is a record of inputs, one field per call site. *)

From Stdlib Require Import ZArith List Bool String Ascii Lia.
From Stdlib Require Import DecimalString.
From Stdlib Require Import Floats.SpecFloat.
Import ListNotations.
Local Open Scope Z_scope.

(* ================================================================== *)
(** ** Binary32 arithmetic *)

Module F32.

Definition prec : Z := 24.
Definition emax : Z := 128.

Definition add : spec_float -> spec_float -> spec_float := SFadd prec emax.
Definition sub : spec_float -> spec_float -> spec_float := SFsub prec emax.
Definition mul : spec_float -> spec_float -> spec_float := SFmul prec emax.
Definition div : spec_float -> spec_float -> spec_float := SFdiv prec emax.

(** Conversion of an [int] to [float] (exact below 2^24, rounded above). *)
Definition of_int (n : Z) : spec_float := binary_normalize prec emax n 0 false.

(** The C comparisons [<=], [<] and [>=]; each is false on a NaN. *)
Definition leb (x y : spec_float) : bool := SFleb x y.
Definition ltb (x y : spec_float) : bool := SFltb x y.
Definition geb (x y : spec_float) : bool := leb y x.

(** The largest binary32 value strictly below [x]. *)
Definition pred (x : spec_float) : spec_float := SFpred prec emax x.

(** A decimal literal [i.f] denotes the binary32 value nearest to it: the
    correctly rounded quotient of the integer [if] by [10^|f|] (both are
    below 2^24 for every literal of the sketch, hence exact). *)
Definition of_decimal (d : Decimal.decimal) : option spec_float :=
  match d with
  | Decimal.Decimal i f =>
      Some (div (of_int (Z.of_int (Decimal.app_int i f)))
                (of_int (10 ^ Z.of_nat (Decimal.nb_digits f))))
  | Decimal.DecimalExp _ _ _ => None
  end.

Definition of_number (n : Number.number) : option spec_float :=
  match n with
  | Number.Decimal d => of_decimal d
  | Number.Hexadecimal _ => None
  end.

Definition to_number (x : spec_float) : option Number.number := None.

End F32.

Declare Scope f32_scope.
Delimit Scope f32_scope with f32.
Number Notation spec_float F32.of_number F32.to_number : f32_scope.
Infix "+" := F32.add : f32_scope.
Infix "-" := F32.sub : f32_scope.
Infix "*" := F32.mul : f32_scope.
Infix "/" := F32.div : f32_scope.
Infix "<=?" := F32.leb : f32_scope.
Infix "<?" := F32.ltb : f32_scope.
Notation "x >=? y" := (F32.geb x y) (at level 70, no associativity) : f32_scope.

Definition float : Type := spec_float.

(* ================================================================== *)
(** ** The Arduino [String] operations the sketch uses *)

Module AString.

(** C's [isspace] in the default locale: space and the controls 9..13. *)
Definition isspace (c : ascii) : bool :=
  let n := nat_of_ascii c in
  ((n =? 32) || ((9 <=? n) && (n <=? 13)))%nat.

Fixpoint ltrim (s : string) : string :=
  match s with
  | EmptyString => EmptyString
  | String c s' => if isspace c then ltrim s' else s
  end.

Fixpoint rtrim (s : string) : string :=
  match s with
  | EmptyString => EmptyString
  | String c s' =>
      match rtrim s' with
      | EmptyString => if isspace c then EmptyString else String c EmptyString
      | r => String c r
      end
  end.

(** [String::trim]: drops the leading, then the trailing white space. *)
Definition trim (s : string) : string := rtrim (ltrim s).

Definition tolower (c : ascii) : ascii :=
  let n := nat_of_ascii c in
  if ((65 <=? n) && (n <=? 90))%nat then ascii_of_nat (n + 32) else c.

(** [String::equalsIgnoreCase]: same length, same characters up to case. *)
Fixpoint equalsIgnoreCase (s1 s2 : string) : bool :=
  match s1, s2 with
  | EmptyString, EmptyString => true
  | String c1 r1, String c2 r2 =>
      Ascii.eqb (tolower c1) (tolower c2) && equalsIgnoreCase r1 r2
  | _, _ => false
  end.

(** [sprintf]'s conversion [%02d]. *)
Definition fmt_02d (n : Z) : string :=
  let s := NilZero.string_of_int (Z.to_int n) in
  if (String.length s <? 2)%nat then String "0" s else s.

End AString.

(* ================================================================== *)
(** ** Data model *)

(** What [rtc.now()] returns, as far as the sketch looks at it. *)
Record DateTime : Type := mkDateTime { hour : Z; minute : Z; second : Z }.

(** The analog pins. *)
Inductive Pin : Type := A0 | A1 | A2.

Definition pH_PIN : Pin := A0.
Definition turbidityPin : Pin := A2.
Definition tdsPin : Pin := A1.

Definition PH_VOLTAGE_REF : float := 5.0%f32.
Definition TDS_VOLTAGE_REF : float := 5.0%f32.
Definition CALIBRATION_FACTOR : float := 0.7%f32.

Definition readingInterval : Z := 60000.

(** The mutable globals of the sketch (lines 24, 28 and 29). *)
Record Globals : Type := mkGlobals {
  lastReadingTime : Z;
  isRunning : bool;
  temperature : float
}.

Definition initial : Globals :=
  {| lastReadingTime := 0; isRunning := true; temperature := 25.0%f32 |}.

(** What the sketch does to the outside world. *)
Inductive Event : Type :=
| SerialPrint (s : string)                          (* Serial.print(s) *)
| SerialPrintln (s : string)                        (* Serial.println(s) *)
| SerialPrintlnFloat (x : float) (digits : Z)       (* Serial.println(x, digits) *)
| MySerialPrintlnFloat (x : float) (digits : Z)     (* mySerial.println(x, digits) *)
| Delay (ms : Z).                                   (* delay(ms) *)

(** What the hardware hands to one pass through [loop], per call site. *)
Record Inputs : Type := mkInputs {
  Serial_available : Z;            (* line 74 *)
  Serial_readStringUntil : string; (* line 75, the text before the newline *)
  rtc_now : DateTime;              (* line 96 *)
  millis_cond : Z;                 (* line 104, in [0, 2^32) *)
  millis_assign : Z;               (* line 105, in [0, 2^32) *)
  adc_command : Pin -> Z;          (* analogRead during the reading of line 87 *)
  adc_periodic : Pin -> Z          (* analogRead during the reading of line 106 *)
}.

(** [unsigned long] subtraction. *)
Definition ulong_sub (a b : Z) : Z := (a - b) mod 2 ^ 32.

(* ================================================================== *)
(** ** The state-and-output monad *)

Definition M (A : Type) : Type := Globals -> A * Globals * list Event.

Definition ret {A : Type} (a : A) : M A := fun g => (a, g, []).

Definition bind {A B : Type} (m : M A) (k : A -> M B) : M B :=
  fun g =>
    let r1 := m g in
    let r2 := k (fst (fst r1)) (snd (fst r1)) in
    (fst (fst r2), snd (fst r2), snd r1 ++ snd r2).

Notation "x <- m ;; k" := (bind m (fun x => k))
  (at level 61, m at next level, right associativity).
Notation "m ;; k" := (bind m (fun _ => k))
  (at level 61, right associativity).

Definition gets {A : Type} (f : Globals -> A) : M A := fun g => (f g, g, []).
Definition emit (e : Event) : M unit := fun g => (tt, g, [e]).

Definition set_isRunning (b : bool) : M unit :=
  fun g => (tt, {| lastReadingTime := lastReadingTime g;
                   isRunning := b;
                   temperature := temperature g |}, []).

Definition set_lastReadingTime (t : Z) : M unit :=
  fun g => (tt, {| lastReadingTime := t;
                   isRunning := isRunning g;
                   temperature := temperature g |}, []).

Definition when (b : bool) (m : M unit) : M unit := if b then m else ret tt.

Fixpoint repeatM (n : nat) (m : M unit) : M unit :=
  match n with
  | O => ret tt
  | S n' => m ;; repeatM n' m
  end.

(** Running a computation: its final globals and what it emitted. *)
Definition globals_after {A : Type} (m : M A) (g : Globals) : Globals := snd (fst (m g)).
Definition trace_of {A : Type} (m : M A) (g : Globals) : list Event := snd (m g).
Definition value_of {A : Type} (m : M A) (g : Globals) : A := fst (fst (m g)).

Definition Serial_print (s : string) : M unit := emit (SerialPrint s).
Definition Serial_println (s : string) : M unit := emit (SerialPrintln s).
Definition Serial_println_float (x : float) (digits : Z) : M unit :=
  emit (SerialPrintlnFloat x digits).
Definition mySerial_println_float (x : float) (digits : Z) : M unit :=
  emit (MySerialPrintlnFloat x digits).
Definition delay (ms : Z) : M unit := emit (Delay ms).

(* ================================================================== *)
(** ** The sketch *)

(** Lines 154-156. *)
Definition mapVoltageToPH (voltage pHLow pHHigh voltageLow voltageHigh : float) : float :=
  (pHLow + ((voltage - voltageLow) * (pHHigh - pHLow)) / (voltageHigh - voltageLow))%f32.

(** Lines 158-165.  The parameter [pH] is not looked at. *)
Definition evaluatePHQuality (voltage pH : float) : string :=
  if (voltage <=? 2.29)%f32 then "Acidic - Bad"
  else if (voltage >=? 2.3)%f32 && (voltage <=? 2.5)%f32 then "Good"
  else "Bad - Alkaline".

(** Lines 167-169. *)
Definition evaluateTurbidityQuality (voltage : float) : string :=
  if (voltage >=? 2.0)%f32 && (voltage <=? 5.0)%f32 then "Good" else "Bad".

(** Lines 171-173; the [int] literal 500 is converted to [float]. *)
Definition evaluateTDSQuality (tds : float) : string :=
  if (tds <=? F32.of_int 500)%f32 then "Good" else "Bad".

(** The raw-to-voltage scaling written out at lines 116, 138 and 176:
    [(raw / fullScaleRaw) * referenceVoltage], [raw] converted to [float]. *)
Definition voltageOf (raw : Z) (fullScaleRaw referenceVoltage : float) : float :=
  ((F32.of_int raw / fullScaleRaw) * referenceVoltage)%f32.

(** Lines 175-181.  Reads the global [temperature]. *)
Definition calculateTDS (rawValue : Z) : M float :=
  temperature <- gets temperature ;;
  let voltage := voltageOf rawValue 1024.0%f32 TDS_VOLTAGE_REF in
  let tds := ((133.42 * voltage * voltage * voltage
               - 255.86 * voltage * voltage
               + 857.39 * voltage) * 0.5)%f32 in
  let tds := (tds * CALIBRATION_FACTOR)%f32 in
  let compensation := (1.0 + 0.02 * (temperature - 25.0))%f32 in
  ret (tds / compensation)%f32.

(** Line 184: the value of the local [overall]. *)
Definition overallVerdict (pHQuality turbidityQuality tdsQuality : string) : string :=
  if (pHQuality =? "Good")%string && (turbidityQuality =? "Good")%string
     && (tdsQuality =? "Good")%string
  then "Excellent" else "Poor, Needs Treatment".

(** The advisory text of line 187, as the bytes of the source file. *)
Definition advisory : string := "⚠️ Water may require treatment.".

(** Lines 183-190. *)
Definition evaluateOverallQuality (pHQuality turbidityQuality tdsQuality : string) : M unit :=
  let overall := overallVerdict pHQuality turbidityQuality tdsQuality in
  Serial_println ("Overall Water Quality: " ++ overall) ;;
  when (negb (overall =? "Excellent")%string) (Serial_println advisory) ;;
  Serial_println "------------------------------------------".

(** Lines 197-208. *)
Definition formatTime12Hour (hour minute second : Z) : string :=
  let am_pm := if 12 <=? hour then "PM"%string else "AM"%string in
  let hour := if (12 <=? hour) && (12 <? hour) then hour - 12 else hour in
  let hour := if hour =? 0 then 12 else hour in
  (AString.fmt_02d hour ++ ":" ++ AString.fmt_02d minute ++ ":"
   ++ AString.fmt_02d second ++ " " ++ am_pm)%string.

(** Lines 192-195. *)
Definition logSensorValues (now : DateTime) : M unit :=
  Serial_print "Logging Sensor Values at: " ;;
  Serial_println (formatTime12Hour (hour now) (minute now) (second now)).

(** Lines 119-128 of [readAllSensors]: the pH value chosen for a probe
    voltage.  The source computes it in place; the specification calls it
    [pHFromVoltage]. *)
Definition pHFromVoltage (pHVoltage : float) : float :=
  if (pHVoltage >=? 1.0)%f32 && (pHVoltage <? 1.6)%f32 then
    mapVoltageToPH pHVoltage 7.0%f32 8.0%f32 1.0%f32 1.6%f32
  else if (pHVoltage >=? 1.6)%f32 && (pHVoltage <? 2.0)%f32 then
    mapVoltageToPH pHVoltage 8.0%f32 9.0%f32 1.6%f32 2.0%f32
  else if (pHVoltage >=? 2.0)%f32 && (pHVoltage <? 2.5)%f32 then
    mapVoltageToPH pHVoltage 6.0%f32 7.5%f32 2.0%f32 2.5%f32
  else if (pHVoltage >=? 2.5)%f32 && (pHVoltage <? 3.0)%f32 then
    mapVoltageToPH pHVoltage 7.5%f32 9.0%f32 2.5%f32 3.0%f32
  else
    0.0%f32.

(** Lines 111-151.  [analogRead] gives the three samples of this reading;
    the [rtc.now()] of line 112 is stored in a local that is never used. *)
Definition readAllSensors (analogRead : Pin -> Z) : M unit :=
  (* pH *)
  let pHRaw := analogRead pH_PIN in
  let pHVoltage := voltageOf pHRaw 1023.0%f32 PH_VOLTAGE_REF in
  let pHValue := pHFromVoltage pHVoltage in
  let pHQuality := evaluatePHQuality pHVoltage pHValue in
  Serial_print "pH Value: " ;; Serial_println_float pHValue 2 ;;
  Serial_print "pH Quality: " ;; Serial_println pHQuality ;;
  mySerial_println_float pHValue 2 ;;
  (* Turbidity *)
  let turbRaw := analogRead turbidityPin in
  let turbVoltage := voltageOf turbRaw 1023.0%f32 5.0%f32 in
  let turbQuality := evaluateTurbidityQuality turbVoltage in
  Serial_print "Turbidity Voltage: " ;; Serial_println_float turbVoltage 2 ;;
  Serial_print "Turbidity Quality: " ;; Serial_println turbQuality ;;
  (* TDS *)
  let tdsRaw := analogRead tdsPin in
  tds <- calculateTDS tdsRaw ;;
  let tdsQuality := evaluateTDSQuality tds in
  Serial_print "TDS Value: " ;; Serial_println_float tds 2 ;;
  Serial_print "TDS Quality: " ;; Serial_println tdsQuality ;;
  evaluateOverallQuality pHQuality turbQuality tdsQuality.

(** Lines 74-89 of [loop]: the command interpreter. *)
Definition loop_commands (i : Inputs) : M unit :=
  when (0 <? Serial_available i) (
    let command := AString.trim (Serial_readStringUntil i) in
    if (command =? "st")%string then
      set_isRunning false ;; Serial_println "Execution halted."
    else if (command =? "s")%string then
      set_isRunning true ;; Serial_println "Execution resumed."
    else if (command =? "c")%string then
      repeatM 50 (Serial_println " ")
    else if AString.equalsIgnoreCase command "r" then
      readAllSensors (adc_command i)
    else ret tt).

(** Lines 98-102 of [loop]: the daily log. *)
Definition loop_daily (now : DateTime) : M unit :=
  when ((hour now =? 10) && (minute now =? 0) && (second now =? 0)) (
    logSensorValues now ;; delay 1000).

(** Lines 104-107 of [loop]: the periodic reading. *)
Definition loop_periodic (i : Inputs) : M unit :=
  last <- gets lastReadingTime ;;
  when (readingInterval <=? ulong_sub (millis_cond i) last) (
    set_lastReadingTime (millis_assign i) ;;
    readAllSensors (adc_periodic i)).

(** Lines 73-108: one pass through [loop]. *)
Definition loop (i : Inputs) : M unit :=
  loop_commands i ;;
  running <- gets isRunning ;;
  if negb running then
    delay 100
  else
    let now := rtc_now i in
    loop_daily now ;;
    loop_periodic i.

(** Several passes, one record of inputs each. *)
Fixpoint run_loop (inputs : list Inputs) : M unit :=
  match inputs with
  | [] => ret tt
  | i :: rest => loop i ;; run_loop rest
  end.

(* ================================================================== *)
(** ** Reference definitions, following the specification's words *)

(** A row of the calibration table of section 4.1: the voltage range
    [vLow, vHigh) and the pH interval [pHLow, pHHigh] it is mapped to. *)
Record Band : Type := mkBand { vLow : float; vHigh : float; pHLow : float; pHHigh : float }.

Definition band1 : Band := mkBand 1.0%f32 1.6%f32 7.0%f32 8.0%f32.
Definition band2 : Band := mkBand 1.6%f32 2.0%f32 8.0%f32 9.0%f32.
Definition band3 : Band := mkBand 2.0%f32 2.5%f32 6.0%f32 7.5%f32.
Definition band4 : Band := mkBand 2.5%f32 3.0%f32 7.5%f32 9.0%f32.

Definition spec_bands : list Band := [band1; band2; band3; band4].

(** Inclusive-low, exclusive-high membership. *)
Definition in_band (b : Band) (voltage : float) : bool :=
  (voltage >=? vLow b)%f32 && (voltage <? vHigh b)%f32.

(** [pH = pHLow + (voltage - vLow) * (pHHigh - pHLow) / (vHigh - vLow)]. *)
Definition interpolate (b : Band) (voltage : float) : float :=
  (pHLow b + (voltage - vLow b) * (pHHigh b - pHLow b) / (vHigh b - vLow b))%f32.

(** Continuity at the upper boundary of band [b]: the value the band's line
    reaches at its (excluded) upper end is the value [pHFromVoltage] takes
    there, and the last voltage below the boundary is mapped within [tol]
    of it. *)
Definition continuous_at_upper_boundary (tol : float) (b : Band) : Prop :=
  interpolate b (vHigh b) = pHFromVoltage (vHigh b) /\
  (SFabs (pHFromVoltage (vHigh b) - pHFromVoltage (F32.pred (vHigh b))) <=? tol)%f32 = true.

(** The boundaries that lie between two bands: the upper ends of the first
    three rows (1.6, 2.0 and 2.5). *)
Definition inner_boundaries : list Band := [band1; band2; band3].

(** [c * v^n], the products taken from the left as C evaluates them. *)
Definition monomial (c v : float) (n : nat) : float :=
  Nat.iter n (fun acc => (acc * v)%f32) c.

(** [tdsFromRaw] of section 4.1. *)
Definition tdsFromRaw_spec (raw : Z) (temperatureC : float) : float :=
  let referenceVoltage := 5.0%f32 in
  let v := ((F32.of_int raw / 1024.0) * referenceVoltage)%f32 in
  let tds := ((monomial 133.42%f32 v 3 - monomial 255.86%f32 v 2 + monomial 857.39%f32 v 1)
              * 0.5)%f32 in
  ((tds * 0.7) / (1.0 + 0.02 * (temperatureC - 25.0)))%f32.

(* ================================================================== *)
(** ** Reading a trace *)

(** Every acquisition sends exactly one line to the companion device. *)
Definition is_acquisition (e : Event) : bool :=
  match e with MySerialPrintlnFloat _ _ => true | _ => false end.

Definition acquisitions (tr : list Event) : nat := List.length (filter is_acquisition tr).

(** The log action announces itself on the console. *)
Definition is_log (e : Event) : bool :=
  match e with
  | SerialPrint s => (s =? "Logging Sensor Values at: ")%string
  | _ => false
  end.

Definition log_actions (tr : list Event) : nat := List.length (filter is_log tr).

(** The daily trigger's test on the clock. *)
Definition at_ten (now : DateTime) : Prop := hour now = 10 /\ minute now = 0 /\ second now = 0.

(** The command token of a pass, if input was pending. *)
Definition command_token (i : Inputs) : option string :=
  if 0 <? Serial_available i then Some (AString.trim (Serial_readStringUntil i)) else None.

(** The same inputs with nothing pending on the console. *)
Definition without_command (i : Inputs) : Inputs :=
  {| Serial_available := 0;
     Serial_readStringUntil := Serial_readStringUntil i;
     rtc_now := rtc_now i;
     millis_cond := millis_cond i;
     millis_assign := millis_assign i;
     adc_command := adc_command i;
     adc_periodic := adc_periodic i |}.

(** What one reading prints, given the samples and the globals. *)
Definition reading_trace (analogRead : Pin -> Z) (g : Globals) : list Event :=
  trace_of (readAllSensors analogRead) g.

(* ================================================================== *)
(** ** Notions used by the further properties *)

(** The pH probe voltage and the pH value of a raw sample (lines 116-128). *)
Definition pHVoltageOf (pHRaw : Z) : float := voltageOf pHRaw 1023.0%f32 PH_VOLTAGE_REF.
Definition pHValueOf (pHRaw : Z) : float := pHFromVoltage (pHVoltageOf pHRaw).

(** The three labels of a reading, as [readAllSensors] computes them. *)
Definition pHQualityOf (pHRaw : Z) : string :=
  evaluatePHQuality (pHVoltageOf pHRaw) (pHValueOf pHRaw).
Definition turbQualityOf (turbRaw : Z) : string :=
  evaluateTurbidityQuality (voltageOf turbRaw 1023.0%f32 5.0%f32).
Definition tdsQualityOf (tdsRaw : Z) (g : Globals) : string :=
  evaluateTDSQuality (value_of (calculateTDS tdsRaw) g).

(** A pass whose command token asks for a reading. *)
Definition is_read_command (i : Inputs) : bool :=
  match command_token i with
  | Some command => AString.equalsIgnoreCase command "r"
  | None => false
  end.

(** The run state a pass leaves, by the token it received. *)
Definition next_run_state (running : bool) (i : Inputs) : bool :=
  match command_token i with
  | Some command =>
      if (command =? "st")%string then false
      else if (command =? "s")%string then true
      else running
  | None => running
  end.

Definition run_state_after (inputs : list Inputs) (running : bool) : bool :=
  fold_left next_run_state inputs running.

(** Reading a text [hh:mm:ss AM] or [hh:mm:ss PM] back as a time of day. *)
Definition digit_value (c : ascii) : Z := Z.of_nat (nat_of_ascii c) - 48.

Definition parseTime12Hour (s : string) : option (Z * Z * Z) :=
  match s with
  | String h1 (String h2 (String _ (String m1 (String m2 (String _
      (String s1 (String s2 (String _ (String a (String _ EmptyString)))))))))) =>
      let h12 := 10 * digit_value h1 + digit_value h2 in
      Some (h12 mod 12 + (if Ascii.eqb a "P" then 12 else 0),
            10 * digit_value m1 + digit_value m2,
            10 * digit_value s1 + digit_value s2)
  | _ => None
  end.

(** A time of day as the clock reports it. *)
Definition valid_time (h m s : Z) : Prop := 0 <= h <= 23 /\ 0 <= m <= 59 /\ 0 <= s <= 59.

(* ================================================================== *)
(** ** The order of binary32 values *)

Lemma F32_compare_antisym (x y : spec_float) :
  SFcompare y x = option_map CompOpp (SFcompare x y).
Proof.
  destruct x as [[]|[]| |[] mx ex], y as [[]|[]| |[] my ey]; simpl; try reflexivity.
  all: rewrite (Z.compare_antisym ey ex);
       destruct (ey ?= ex); simpl; try reflexivity;
       change (Pos.compare_cont Eq my mx) with (Pos.compare my mx);
       change (Pos.compare_cont Eq mx my) with (Pos.compare mx my);
       rewrite (Pos.compare_antisym my mx);
       destruct (my ?= mx)%positive; reflexivity.
Qed.

(** [F32.geb] is the comparison [>=] of IEEE 754: greater or equal, false on
    a NaN. *)
Lemma F32_geb_compare (x y : spec_float) :
  F32.geb x y = match SFcompare x y with Some (Gt | Eq) => true | _ => false end.
Proof.
  unfold F32.geb, F32.leb, SFleb. rewrite (F32_compare_antisym x y).
  destruct (SFcompare x y) as [ [] | ]; reflexivity.
Qed.

Ltac f32_cases x y z :=
  destruct x as [[]|[]| |[] ?mx ?ex], y as [[]|[]| |[] ?my ?ey], z as [[]|[]| |[] ?mz ?ez];
  simpl; try reflexivity; try discriminate.

Ltac f32_lex ex ey ez mx my mz :=
  change (Pos.compare_cont Eq) with Pos.compare in *;
  destruct (Z.compare_spec ex ey); try discriminate;
  destruct (Z.compare_spec ey ez); try discriminate;
  destruct (Z.compare_spec ex ez); try reflexivity; try lia; subst;
  destruct (Pos.compare_spec mx my); try discriminate;
  destruct (Pos.compare_spec my mz); try discriminate;
  destruct (Pos.compare_spec mx mz); try reflexivity;
  simpl in *; try discriminate; try lia.

Lemma F32_leb_trans (x y z : spec_float) :
  F32.leb x y = true -> F32.leb y z = true -> F32.leb x z = true.
Proof.
  unfold F32.leb, SFleb. f32_cases x y z; intros H1 H2.
  all: f32_lex ex ey ez mx my mz.
Qed.

Lemma F32_leb_ltb_trans (x y z : spec_float) :
  F32.leb x y = true -> F32.ltb y z = true -> F32.ltb x z = true.
Proof.
  unfold F32.leb, F32.ltb, SFleb, SFltb. f32_cases x y z; intros H1 H2.
  all: f32_lex ex ey ez mx my mz.
Qed.

Lemma F32_ltb_leb_trans (x y z : spec_float) :
  F32.ltb x y = true -> F32.leb y z = true -> F32.ltb x z = true.
Proof.
  unfold F32.leb, F32.ltb, SFleb, SFltb. f32_cases x y z; intros H1 H2.
  all: f32_lex ex ey ez mx my mz.
Qed.

Lemma F32_ltb_irrefl (x : spec_float) : F32.ltb x x = false.
Proof.
  unfold F32.ltb, SFltb.
  destruct x as [[]|[]| |[] m e]; simpl; try reflexivity.
  all: rewrite Z.compare_refl; change (Pos.compare_cont Eq m m) with (Pos.compare m m);
       rewrite Pos.compare_refl; reflexivity.
Qed.

Lemma F32_ltb_geb_false (x y : spec_float) :
  F32.ltb x y = true -> F32.geb x y = false.
Proof.
  intros H. unfold F32.geb. change (F32.leb y x = false).
  destruct (F32.leb y x) eqn:E; [ | reflexivity ].
  pose proof (F32_leb_ltb_trans _ _ _ E H) as X.
  rewrite F32_ltb_irrefl in X. discriminate.
Qed.

Lemma F32_geb_ltb_false (x y : spec_float) :
  F32.geb x y = true -> F32.ltb x y = false.
Proof.
  intros H. destruct (F32.ltb x y) eqn:E; [ | reflexivity ].
  rewrite (F32_ltb_geb_false _ _ E) in H. discriminate.
Qed.

(** Two bounds on one value that no value can meet. *)
Ltac f32_absurd :=
  unfold F32.geb in *;
  match goal with
  | L : F32.leb ?c ?v = true, U : F32.ltb ?v ?d = true |- _ =>
      let X := fresh in
      pose proof (F32_leb_ltb_trans _ _ _ L U) as X; vm_compute in X; discriminate X
  | L : F32.leb ?c ?v = true, U : F32.leb ?v ?d = true |- _ =>
      let X := fresh in
      pose proof (F32_leb_trans _ _ _ L U) as X; vm_compute in X; discriminate X
  | L : F32.ltb ?c ?v = true, U : F32.leb ?v ?d = true |- _ =>
      let X := fresh in
      pose proof (F32_ltb_leb_trans _ _ _ L U) as X; vm_compute in X; discriminate X
  end.

(** A comparison that the bounds at hand exclude. *)
Ltac f32_false :=
  match goal with
  | |- ?b = false => let E := fresh "E" in destruct b eqn:E; [ exfalso; f32_absurd | reflexivity ]
  end.

(** Discards the test of a band the voltage is not in. *)
Ltac skip_band :=
  match goal with
  | |- context [andb (F32.geb ?v ?a) (F32.ltb ?v ?b)] =>
      first
        [ replace (F32.ltb v b) with false by (symmetry; f32_false);
          rewrite andb_false_r
        | replace (F32.geb v a) with false by (symmetry; f32_false);
          rewrite andb_false_l ]
  end.

Lemma pHFromVoltage_in_band (b : Band) (v : float) :
  In b spec_bands -> in_band b v = true -> pHFromVoltage v = interpolate b v.
Proof.
  unfold spec_bands, in_band.
  intros [<- | [<- | [<- | [<- | []]]]]; cbn [vLow vHigh band1 band2 band3 band4]; intros H;
    apply andb_prop in H; destruct H as [Hlo Hhi]; unfold pHFromVoltage.
  - rewrite Hlo, Hhi. reflexivity.
  - skip_band. rewrite Hlo, Hhi. reflexivity.
  - do 2 skip_band. rewrite Hlo, Hhi. reflexivity.
  - do 3 skip_band. rewrite Hlo, Hhi. reflexivity.
Qed.

Lemma pHFromVoltage_below (v : float) :
  (v <? 1.0)%f32 = true -> pHFromVoltage v = 0.0%f32.
Proof.
  intros H. unfold pHFromVoltage. do 4 skip_band. reflexivity.
Qed.

Lemma pHFromVoltage_above (v : float) :
  (v >=? 3.0)%f32 = true -> pHFromVoltage v = 0.0%f32.
Proof.
  intros H. unfold pHFromVoltage. do 4 skip_band. reflexivity.
Qed.

(* ================================================================== *)
(** ** Classification of the pH probe voltage *)

(** C1.  The pH quality label is decided by the probe voltage alone:
    "Acidic - Bad" when [voltage <= 2.29], "Good" when
    [2.3 <= voltage <= 2.5], "Bad - Alkaline" in every other case; the
    computed pH handed to [evaluatePHQuality] never changes the label.  The
    four voltages 2.29, 2.30, 2.50 and 2.51 are classified AcidicBad, Good,
    Good and AlkalineBad. *)
Theorem evaluatePHQuality_by_voltage :
  forall voltage pH : float,
    ((voltage <=? 2.29)%f32 = true ->
       evaluatePHQuality voltage pH = "Acidic - Bad"%string) /\
    ((voltage >=? 2.3)%f32 = true /\ (voltage <=? 2.5)%f32 = true ->
       evaluatePHQuality voltage pH = "Good"%string) /\
    ((voltage <=? 2.29)%f32 = false ->
     ~ ((voltage >=? 2.3)%f32 = true /\ (voltage <=? 2.5)%f32 = true) ->
       evaluatePHQuality voltage pH = "Bad - Alkaline"%string) /\
    (forall pH' : float, evaluatePHQuality voltage pH = evaluatePHQuality voltage pH') /\
    evaluatePHQuality 2.29%f32 pH = "Acidic - Bad"%string /\
    evaluatePHQuality 2.30%f32 pH = "Good"%string /\
    evaluatePHQuality 2.50%f32 pH = "Good"%string /\
    evaluatePHQuality 2.51%f32 pH = "Bad - Alkaline"%string.
Proof.
  intros voltage pH. unfold evaluatePHQuality.
  split; [ | split; [ | split; [ | split ] ] ].
  - intros H. rewrite H. reflexivity.
  - intros [Hlo Hhi].
    replace (voltage <=? 2.29)%f32 with false by (symmetry; f32_false).
    rewrite Hlo, Hhi. reflexivity.
  - intros H Hmid. rewrite H.
    destruct (voltage >=? 2.3)%f32 eqn:Hlo; [ | reflexivity ].
    destruct (voltage <=? 2.5)%f32 eqn:Hhi; [ | reflexivity ].
    exfalso. apply Hmid. split; reflexivity.
  - intros pH'. reflexivity.
  - repeat split; vm_compute; reflexivity.
Qed.

Lemma evaluatePHQuality_by_voltage_witness :
  evaluatePHQuality (voltageOf 450 1023.0%f32 PH_VOLTAGE_REF) 7.0%f32 = "Acidic - Bad"%string /\
  evaluatePHQuality (voltageOf 500 1023.0%f32 PH_VOLTAGE_REF) 0.0%f32 = "Good"%string /\
  evaluatePHQuality (voltageOf 620 1023.0%f32 PH_VOLTAGE_REF) 0.0%f32 = "Bad - Alkaline"%string.
Proof.
  split; [ | split ].
  - apply (proj1 (evaluatePHQuality_by_voltage _ _)). vm_compute. reflexivity.
  - apply (proj1 (proj2 (evaluatePHQuality_by_voltage _ _))). vm_compute. split; reflexivity.
  - apply (proj1 (proj2 (proj2 (evaluatePHQuality_by_voltage _ _)))).
    + vm_compute. reflexivity.
    + vm_compute. intros [_ H]. discriminate H.
Defined.

(* ================================================================== *)
(** ** What the procedures of the sketch do *)

Lemma run_bind {A B : Type} (m : M A) (k : A -> M B) (g : Globals)
      (a : A) (g1 : Globals) (t1 : list Event)
      (b : B) (g2 : Globals) (t2 : list Event) (r : B * Globals * list Event) :
  m g = (a, g1, t1) -> k a g1 = (b, g2, t2) -> r = (b, g2, t1 ++ t2) ->
  bind m k g = r.
Proof.
  intros H1 H2 ->. unfold bind. rewrite H1. cbn [fst snd]. rewrite H2. reflexivity.
Qed.

Lemma run_emit (e : Event) (g : Globals) : emit e g = (tt, g, [e]).
Proof. reflexivity. Qed.

Lemma overallVerdict_excellent_eqb (p t d : string) :
  (overallVerdict p t d =? "Excellent")%string
  = (p =? "Good")%string && (t =? "Good")%string && (d =? "Good")%string.
Proof.
  unfold overallVerdict.
  destruct ((p =? "Good")%string && (t =? "Good")%string && (d =? "Good")%string);
    reflexivity.
Qed.

Lemma evaluateOverallQuality_run (p t d : string) (g : Globals) :
  evaluateOverallQuality p t d g
  = (tt, g,
     SerialPrintln ("Overall Water Quality: " ++ overallVerdict p t d)
     :: (if (overallVerdict p t d =? "Excellent")%string then [] else [SerialPrintln advisory])
     ++ [SerialPrintln "------------------------------------------"]).
Proof.
  unfold evaluateOverallQuality, bind, when, Serial_println, emit, ret.
  destruct (overallVerdict p t d =? "Excellent")%string; reflexivity.
Qed.

Lemma calculateTDS_run (rawValue : Z) (g : Globals) :
  calculateTDS rawValue g = (tdsFromRaw_spec rawValue (temperature g), g, []).
Proof. reflexivity. Qed.

(** Runs a sequence of actions, one [bind] at a time. *)
Ltac run_with leaf :=
  lazymatch goal with
  | |- bind _ _ _ = _ => eapply run_bind; [ run_with leaf | cbv beta; run_with leaf | ]
  | |- _ => leaf
  end.

Ltac run_prints :=
  run_with ltac:(first [ apply calculateTDS_run
                       | apply evaluateOverallQuality_run
                       | apply run_emit ]).

Lemma readAllSensors_run (analogRead : Pin -> Z) (g : Globals) :
  readAllSensors analogRead g
  = (tt, g,
     let pHVoltage := voltageOf (analogRead pH_PIN) 1023.0%f32 PH_VOLTAGE_REF in
     let pHValue := pHFromVoltage pHVoltage in
     let pHQuality := evaluatePHQuality pHVoltage pHValue in
     let turbVoltage := voltageOf (analogRead turbidityPin) 1023.0%f32 5.0%f32 in
     let turbQuality := evaluateTurbidityQuality turbVoltage in
     let tds := value_of (calculateTDS (analogRead tdsPin)) g in
     let tdsQuality := evaluateTDSQuality tds in
     [ SerialPrint "pH Value: "; SerialPrintlnFloat pHValue 2;
       SerialPrint "pH Quality: "; SerialPrintln pHQuality;
       MySerialPrintlnFloat pHValue 2;
       SerialPrint "Turbidity Voltage: "; SerialPrintlnFloat turbVoltage 2;
       SerialPrint "Turbidity Quality: "; SerialPrintln turbQuality;
       SerialPrint "TDS Value: "; SerialPrintlnFloat tds 2;
       SerialPrint "TDS Quality: "; SerialPrintln tdsQuality ]
     ++ trace_of (evaluateOverallQuality pHQuality turbQuality tdsQuality) g).
Proof.
  unfold readAllSensors, value_of, trace_of. cbv zeta.
  rewrite calculateTDS_run, evaluateOverallQuality_run. cbn [fst snd].
  unfold Serial_print, Serial_println, Serial_println_float, mySerial_println_float.
  run_prints.
  all: reflexivity.
Qed.

Lemma readAllSensors_globals (analogRead : Pin -> Z) (g : Globals) :
  globals_after (readAllSensors analogRead) g = g.
Proof. unfold globals_after. rewrite readAllSensors_run. reflexivity. Qed.

(* ================================================================== *)
(** ** The pH calibration curve *)

(** C2, as amended.  On each of the four bands [1.0,1.6), [1.6,2.0),
    [2.0,2.5) and [2.5,3.0) the pH is the interpolation
    [pHLow + (voltage - vLow) * (pHHigh - pHLow) / (vHigh - vLow)] of that
    band; the curve is continuous at the band boundaries 1.6 and 2.5, where
    the lower band's line ends at the value (8.0, 7.5) the upper band starts
    from; and the voltage 1.3 gives the pH 7.5 exactly. *)
Theorem pHFromVoltage_piecewise_linear :
  (forall (b : Band) (voltage : float),
      In b spec_bands -> in_band b voltage = true ->
      pHFromVoltage voltage = interpolate b voltage) /\
  continuous_at_upper_boundary 0.01%f32 band1 /\
  continuous_at_upper_boundary 0.01%f32 band3 /\
  pHFromVoltage (vHigh band1) = 8.0%f32 /\
  pHFromVoltage (vHigh band3) = 7.5%f32 /\
  pHFromVoltage 1.3%f32 = 7.5%f32.
Proof.
  split; [ exact pHFromVoltage_in_band | ].
  unfold continuous_at_upper_boundary.
  repeat split; vm_compute; reflexivity.
Qed.

Lemma pHFromVoltage_piecewise_linear_witness :
  pHFromVoltage (voltageOf 266 1023.0%f32 PH_VOLTAGE_REF)
  = interpolate band1 (voltageOf 266 1023.0%f32 PH_VOLTAGE_REF).
Proof.
  apply (proj1 pHFromVoltage_piecewise_linear).
  - simpl. left. reflexivity.
  - vm_compute. reflexivity.
Defined.

(** C2, the claim as stated, fails at the boundary 2.0: the band [1.6,2.0)
    ends at pH 9.0 and the band [2.0,2.5) starts at pH 6.0, so the curve is
    not continuous at every boundary between two bands. *)
Lemma pHFromVoltage_jump_at_2_0 :
  In band2 inner_boundaries /\
  interpolate band2 (vHigh band2) = 9.0%f32 /\
  pHFromVoltage (F32.pred (vHigh band2)) = 9.0%f32 /\
  pHFromVoltage (vHigh band2) = 6.0%f32 /\
  ~ (forall b : Band, In b inner_boundaries -> continuous_at_upper_boundary 0.01%f32 b).
Proof.
  split; [ simpl; auto | ].
  split; [ vm_compute; reflexivity | ].
  split; [ vm_compute; reflexivity | ].
  split; [ vm_compute; reflexivity | ].
  intros H. destruct (H band2) as [Hjoin _]; [ simpl; auto | ].
  vm_compute in Hjoin. discriminate Hjoin.
Qed.

(** C8.  A probe voltage outside the four bands (below 1.0, or 3.0 and
    above) gives the pH 0.0; a reading whose probe voltage is outside the
    bands prints that 0.0 as the pH value on the console and sends it to the
    companion device, like any other value. *)
Theorem pHFromVoltage_out_of_band :
  (forall voltage : float,
      (voltage <? 1.0)%f32 = true \/ (voltage >=? 3.0)%f32 = true ->
      pHFromVoltage voltage = 0.0%f32) /\
  (forall (analogRead : Pin -> Z) (g : Globals),
      let voltage := voltageOf (analogRead pH_PIN) 1023.0%f32 PH_VOLTAGE_REF in
      (voltage <? 1.0)%f32 = true \/ (voltage >=? 3.0)%f32 = true ->
      exists rest : list Event,
        readAllSensors analogRead g
        = (tt, g,
           [ SerialPrint "pH Value: "; SerialPrintlnFloat 0.0%f32 2;
             SerialPrint "pH Quality: "; SerialPrintln (evaluatePHQuality voltage 0.0%f32);
             MySerialPrintlnFloat 0.0%f32 2 ] ++ rest)).
Proof.
  assert (Hout : forall voltage : float,
             (voltage <? 1.0)%f32 = true \/ (voltage >=? 3.0)%f32 = true ->
             pHFromVoltage voltage = 0.0%f32).
  { intros voltage [H | H]; [ apply pHFromVoltage_below | apply pHFromVoltage_above ];
      exact H. }
  split; [ exact Hout | ].
  intros analogRead g voltage H.
  rewrite readAllSensors_run. cbv zeta. fold voltage.
  rewrite (Hout voltage H).
  eexists. reflexivity.
Qed.

Lemma pHFromVoltage_out_of_band_witness :
  pHFromVoltage (voltageOf 620 1023.0%f32 PH_VOLTAGE_REF) = 0.0%f32 /\
  pHFromVoltage (voltageOf 100 1023.0%f32 PH_VOLTAGE_REF) = 0.0%f32.
Proof.
  split; apply (proj1 pHFromVoltage_out_of_band).
  - right. vm_compute. reflexivity.
  - left. vm_compute. reflexivity.
Defined.

(* ================================================================== *)
(** ** The raw-to-voltage conversion *)

Lemma F32_leb_refl_l (x y : spec_float) : F32.leb x y = true -> F32.leb x x = true.
Proof.
  unfold F32.leb, SFleb.
  destruct x as [[]|[]| |[] m e], y as [[]|[]| |[] m' e']; simpl;
    try reflexivity; try discriminate; intros _.
  all: rewrite Z.compare_refl; change (Pos.compare_cont Eq m m) with (Pos.compare m m);
       rewrite Pos.compare_refl; reflexivity.
Qed.

Lemma F32_leb_refl_r (x y : spec_float) : F32.leb x y = true -> F32.leb y y = true.
Proof.
  unfold F32.leb, SFleb.
  destruct x as [[]|[]| |[] m e], y as [[]|[]| |[] m' e']; simpl;
    try reflexivity; try discriminate; intros _.
  all: rewrite Z.compare_refl; change (Pos.compare_cont Eq m' m') with (Pos.compare m' m');
       rewrite Pos.compare_refl; reflexivity.
Qed.

(** A function on the ADC range that does not decrease from one raw value to
    the next does not decrease at all. *)
Lemma monotone_from_steps (f : Z -> float) (n : Z) :
  (forall r, 0 <= r < n -> F32.leb (f r) (f (r + 1)) = true) ->
  forall r1 r2, 0 <= r1 -> r1 <= r2 -> r2 <= n -> 0 < n ->
    F32.leb (f r1) (f r2) = true.
Proof.
  intros Hstep r1 r2 H0 H12 Hn Hpos.
  replace r2 with (r1 + Z.of_nat (Z.to_nat (r2 - r1))) in * by lia.
  induction (Z.to_nat (r2 - r1)) as [ | k IH ].
  - rewrite Z.add_0_r.
    destruct (Z.eq_dec r1 n) as [-> | Hne].
    + replace n with (n - 1 + 1) by lia.
      apply (F32_leb_refl_r (f (n - 1))). apply Hstep. lia.
    + apply (F32_leb_refl_l _ (f (r1 + 1))). apply Hstep. lia.
  - apply F32_leb_trans with (y := f (r1 + Z.of_nat k)).
    + apply IH; lia.
    + replace (r1 + Z.of_nat (S k)) with (r1 + Z.of_nat k + 1) by lia.
      apply Hstep. lia.
Qed.

(** The same facts for every raw value, checked one step at a time over the
    whole range of the converter. *)
Lemma voltageOf_steps (fullScaleRaw : float) :
  In fullScaleRaw [1023.0%f32; 1024.0%f32] ->
  forall r, 0 <= r < 1023 ->
    F32.leb (voltageOf r fullScaleRaw 5.0%f32) (voltageOf (r + 1) fullScaleRaw 5.0%f32) = true /\
    F32.leb 0.0%f32 (voltageOf r fullScaleRaw 5.0%f32) = true /\
    F32.leb (voltageOf (r + 1) fullScaleRaw 5.0%f32) 5.0%f32 = true.
Proof.
  intros Hfs r Hr.
  assert (Hall : forallb (fun n : nat =>
                   let r := Z.of_nat n in
                   F32.leb (voltageOf r fullScaleRaw 5.0%f32)
                           (voltageOf (r + 1) fullScaleRaw 5.0%f32)
                   && F32.leb 0.0%f32 (voltageOf r fullScaleRaw 5.0%f32)
                   && F32.leb (voltageOf (r + 1) fullScaleRaw 5.0%f32) 5.0%f32)
                 (seq 0 1023) = true).
  { destruct Hfs as [<- | [<- | []]]; vm_compute; reflexivity. }
  rewrite forallb_forall in Hall.
  specialize (Hall (Z.to_nat r)).
  cbv zeta in Hall. rewrite Z2Nat.id in Hall by lia.
  assert (Hin : In (Z.to_nat r) (seq 0 1023)) by (apply in_seq; lia).
  specialize (Hall Hin).
  apply andb_prop in Hall. destruct Hall as [Hall H3].
  apply andb_prop in Hall. destruct Hall as [H1 H2].
  auto.
Qed.

(** C9.  Over the raw values 0..1023 of the converter the voltage
    [(raw / fullScaleRaw) * referenceVoltage] does not decrease when the raw
    value grows, and it lies between 0 and the reference voltage 5.0; this
    holds for the scale 1023.0 of the pH and turbidity channels (and for the
    scale 1024.0 of the TDS channel). *)
Theorem voltageOf_monotone_bounded :
  forall (fullScaleRaw : float) (raw1 raw2 : Z),
    In fullScaleRaw [1023.0%f32; 1024.0%f32] ->
    0 <= raw1 -> raw1 <= raw2 -> raw2 <= 1023 ->
    (voltageOf raw1 fullScaleRaw PH_VOLTAGE_REF
       <=? voltageOf raw2 fullScaleRaw PH_VOLTAGE_REF)%f32 = true /\
    (0.0 <=? voltageOf raw1 fullScaleRaw PH_VOLTAGE_REF)%f32 = true /\
    (voltageOf raw1 fullScaleRaw PH_VOLTAGE_REF <=? PH_VOLTAGE_REF)%f32 = true.
Proof.
  intros fs raw1 raw2 Hfs H0 H12 Hn.
  change PH_VOLTAGE_REF with 5.0%f32.
  pose proof (voltageOf_steps fs Hfs) as Hsteps.
  split; [ | split ].
  - apply (monotone_from_steps (fun r => voltageOf r fs 5.0%f32) 1023); try lia.
    intros r Hr. apply (Hsteps r Hr).
  - destruct (Z.eq_dec raw1 1023) as [-> | Hne].
    + destruct Hfs as [<- | [<- | []]]; vm_compute; reflexivity.
    + apply (Hsteps raw1). lia.
  - destruct (Z.eq_dec raw1 0) as [-> | Hne].
    + destruct Hfs as [<- | [<- | []]]; vm_compute; reflexivity.
    + replace raw1 with (raw1 - 1 + 1) by lia. apply (Hsteps (raw1 - 1)). lia.
Qed.

Lemma voltageOf_monotone_bounded_witness :
  (voltageOf 204 1023.0%f32 PH_VOLTAGE_REF <=? voltageOf 205 1023.0%f32 PH_VOLTAGE_REF)%f32 = true /\
  (0.0 <=? voltageOf 204 1023.0%f32 PH_VOLTAGE_REF)%f32 = true /\
  (voltageOf 204 1023.0%f32 PH_VOLTAGE_REF <=? PH_VOLTAGE_REF)%f32 = true.
Proof.
  apply (voltageOf_monotone_bounded 1023.0%f32 204 205).
  - simpl. left. reflexivity.
  - lia.
  - lia.
  - lia.
Defined.

(* ================================================================== *)
(** ** Total dissolved solids *)

(** C7.  [calculateTDS] computes the reference definition: the voltage
    [(raw / 1024.0) * 5.0], the cubic
    [(133.42 v^3 - 255.86 v^2 + 857.39 v) * 0.5], times the calibration
    factor 0.7, divided by [1.0 + 0.02 * (temperature - 25.0)], for every
    raw value and temperature.  It changes no global and prints nothing, its
    value depends on the raw sample and on the temperature only, and at raw
    0 and 25.0 degrees it is 0. *)
Theorem calculateTDS_reference :
  (forall (rawValue : Z) (g : Globals),
      value_of (calculateTDS rawValue) g = tdsFromRaw_spec rawValue (temperature g)) /\
  (forall (rawValue : Z) (g : Globals),
      globals_after (calculateTDS rawValue) g = g /\
      trace_of (calculateTDS rawValue) g = []) /\
  (forall (rawValue : Z) (g1 g2 : Globals),
      temperature g1 = temperature g2 ->
      value_of (calculateTDS rawValue) g1 = value_of (calculateTDS rawValue) g2) /\
  tdsFromRaw_spec 0 25.0%f32 = 0.0%f32 /\
  (forall g : Globals,
      temperature g = 25.0%f32 -> value_of (calculateTDS 0) g = 0.0%f32).
Proof.
  split; [ | split; [ | split; [ | split ] ] ].
  - intros rawValue g. unfold value_of. rewrite calculateTDS_run. reflexivity.
  - intros rawValue g. unfold globals_after, trace_of. rewrite calculateTDS_run.
    split; reflexivity.
  - intros rawValue g1 g2 Ht. unfold value_of. rewrite !calculateTDS_run.
    cbn [fst]. rewrite Ht. reflexivity.
  - vm_compute. reflexivity.
  - intros g Ht. unfold value_of. rewrite calculateTDS_run. cbn [fst]. rewrite Ht.
    vm_compute. reflexivity.
Qed.

Lemma calculateTDS_reference_witness :
  value_of (calculateTDS 300) initial
  = value_of (calculateTDS 300)
      {| lastReadingTime := 60000; isRunning := false; temperature := 25.0%f32 |} /\
  value_of (calculateTDS 0) initial = 0.0%f32.
Proof.
  split.
  - apply (proj1 (proj2 (proj2 calculateTDS_reference))). reflexivity.
  - apply (proj2 (proj2 (proj2 (proj2 calculateTDS_reference)))). reflexivity.
Defined.

(* ================================================================== *)
(** ** The overall verdict *)

Lemma all_good_iff (p t d : string) :
  (p =? "Good")%string && (t =? "Good")%string && (d =? "Good")%string = true
  <-> p = "Good"%string /\ t = "Good"%string /\ d = "Good"%string.
Proof.
  rewrite !andb_true_iff, !String.eqb_eq. tauto.
Qed.

(** C3.  For every three quality labels the verdict is "Excellent" exactly
    when all three are "Good", and "Poor, Needs Treatment" for any other
    triple; the console gets the verdict line, then, for a verdict other than
    "Excellent" and only then, the advisory line, then the separator. *)
Theorem evaluateOverallQuality_verdict :
  forall (pHQuality turbidityQuality tdsQuality : string) (g : Globals),
    let all_good :=
      pHQuality = "Good"%string /\ turbidityQuality = "Good"%string
      /\ tdsQuality = "Good"%string in
    (overallVerdict pHQuality turbidityQuality tdsQuality = "Excellent"%string <-> all_good) /\
    (~ all_good ->
       overallVerdict pHQuality turbidityQuality tdsQuality = "Poor, Needs Treatment"%string /\
       evaluateOverallQuality pHQuality turbidityQuality tdsQuality g
       = (tt, g, [ SerialPrintln "Overall Water Quality: Poor, Needs Treatment";
                   SerialPrintln advisory;
                   SerialPrintln "------------------------------------------" ])) /\
    (all_good ->
       evaluateOverallQuality pHQuality turbidityQuality tdsQuality g
       = (tt, g, [ SerialPrintln "Overall Water Quality: Excellent";
                   SerialPrintln "------------------------------------------" ])).
Proof.
  intros p t d g all_good. subst all_good.
  rewrite <- all_good_iff.
  rewrite evaluateOverallQuality_run, overallVerdict_excellent_eqb.
  unfold overallVerdict.
  destruct ((p =? "Good")%string && (t =? "Good")%string && (d =? "Good")%string).
  - split; [ split; reflexivity | ].
    split; [ intros H; exfalso; apply H; reflexivity | intros _; reflexivity ].
  - split; [ split; discriminate | ].
    split; [ intros _; split; reflexivity | discriminate ].
Qed.

Lemma evaluateOverallQuality_verdict_witness :
  overallVerdict "Good" "Good" "Bad" = "Poor, Needs Treatment"%string /\
  evaluateOverallQuality "Good" "Good" "Bad" initial
  = (tt, initial, [ SerialPrintln "Overall Water Quality: Poor, Needs Treatment";
                    SerialPrintln advisory;
                    SerialPrintln "------------------------------------------" ]).
Proof.
  apply (proj1 (proj2 (evaluateOverallQuality_verdict "Good" "Good" "Bad" initial))).
  intros [_ [_ H]]. discriminate H.
Defined.

(* ================================================================== *)
(** ** One pass through [loop] *)

Lemma repeatM_emit_run (n : nat) (e : Event) (g : Globals) :
  repeatM n (emit e) g = (tt, g, repeat e n).
Proof.
  induction n as [ | n IH ]; [ reflexivity | ].
  cbn [repeatM repeat].
  eapply run_bind; [ apply run_emit | apply IH | reflexivity ].
Qed.

Lemma loop_commands_run (i : Inputs) (g : Globals) :
  loop_commands i g
  = match command_token i with
    | None => (tt, g, [])
    | Some command =>
        if (command =? "st")%string then
          (tt, {| lastReadingTime := lastReadingTime g; isRunning := false;
                  temperature := temperature g |},
           [SerialPrintln "Execution halted."])
        else if (command =? "s")%string then
          (tt, {| lastReadingTime := lastReadingTime g; isRunning := true;
                  temperature := temperature g |},
           [SerialPrintln "Execution resumed."])
        else if (command =? "c")%string then
          (tt, g, repeat (SerialPrintln " ") 50)
        else if AString.equalsIgnoreCase command "r" then
          (tt, g, reading_trace (adc_command i) g)
        else (tt, g, [])
    end.
Proof.
  unfold loop_commands, command_token, when.
  destruct (0 <? Serial_available i); [ | reflexivity ].
  cbv zeta.
  destruct (AString.trim (Serial_readStringUntil i) =? "st")%string; [ reflexivity | ].
  destruct (AString.trim (Serial_readStringUntil i) =? "s")%string; [ reflexivity | ].
  destruct (AString.trim (Serial_readStringUntil i) =? "c")%string.
  { apply repeatM_emit_run. }
  destruct (AString.equalsIgnoreCase (AString.trim (Serial_readStringUntil i)) "r");
    [ | reflexivity ].
  unfold reading_trace, trace_of. rewrite readAllSensors_run. reflexivity.
Qed.

Lemma loop_daily_run (now : DateTime) (g : Globals) :
  loop_daily now g
  = (tt, g,
     if (hour now =? 10) && (minute now =? 0) && (second now =? 0) then
       [ SerialPrint "Logging Sensor Values at: ";
         SerialPrintln (formatTime12Hour (hour now) (minute now) (second now));
         Delay 1000 ]
     else []).
Proof.
  unfold loop_daily, when.
  destruct ((hour now =? 10) && (minute now =? 0) && (second now =? 0)); reflexivity.
Qed.

Lemma reading_trace_temperature (analogRead : Pin -> Z) (g1 g2 : Globals) :
  temperature g1 = temperature g2 ->
  reading_trace analogRead g1 = reading_trace analogRead g2.
Proof.
  intros Ht. unfold reading_trace, trace_of. rewrite !readAllSensors_run.
  cbn [snd]. cbv zeta. unfold value_of, trace_of.
  rewrite !calculateTDS_run, !evaluateOverallQuality_run. cbn [fst snd].
  rewrite Ht. reflexivity.
Qed.

Lemma loop_periodic_run (i : Inputs) (g : Globals) :
  loop_periodic i g
  = if readingInterval <=? ulong_sub (millis_cond i) (lastReadingTime g) then
      (tt, {| lastReadingTime := millis_assign i; isRunning := isRunning g;
              temperature := temperature g |},
       reading_trace (adc_periodic i) g)
    else (tt, g, []).
Proof.
  unfold loop_periodic, when.
  destruct (readingInterval <=? ulong_sub (millis_cond i) (lastReadingTime g)) eqn:E.
  - eapply run_bind; [ reflexivity | cbv beta; cbn [fst snd]; rewrite E | ].
    + eapply run_bind; [ reflexivity | apply readAllSensors_run | reflexivity ].
    + cbn [app].
      rewrite (reading_trace_temperature _ g
                 {| lastReadingTime := millis_assign i; isRunning := isRunning g;
                    temperature := temperature g |}) by reflexivity.
      unfold reading_trace, trace_of. rewrite readAllSensors_run. reflexivity.
  - eapply run_bind; [ reflexivity | cbv beta; cbn [fst snd]; rewrite E; reflexivity | ].
    reflexivity.
Qed.

Lemma loop_run (i : Inputs) (g : Globals) :
  loop i g
  = let g1 := globals_after (loop_commands i) g in
    if isRunning g1 then
      (tt, globals_after (loop_periodic i) g1,
       trace_of (loop_commands i) g
       ++ trace_of (loop_daily (rtc_now i)) g1
       ++ trace_of (loop_periodic i) g1)
    else
      (tt, g1, trace_of (loop_commands i) g ++ [Delay 100]).
Proof.
  unfold loop, globals_after, trace_of. cbv zeta.
  destruct (loop_commands i g) as [[[] g1] t1] eqn:E1. cbn [fst snd].
  destruct (loop_periodic i g1) as [[[] g2] t2] eqn:E2. cbn [fst snd].
  rewrite loop_daily_run. cbn [snd].
  destruct (isRunning g1) eqn:E.
  - eapply run_bind; [ exact E1 | cbv beta | reflexivity ].
    eapply run_bind; [ reflexivity | cbv beta; cbn [fst snd]; rewrite E; cbn [negb] | reflexivity ].
    eapply run_bind; [ apply loop_daily_run | exact E2 | reflexivity ].
  - eapply run_bind; [ exact E1 | cbv beta | reflexivity ].
    eapply run_bind; [ reflexivity | cbv beta; cbn [fst snd]; rewrite E; reflexivity | reflexivity ].
Qed.

Lemma equalsIgnoreCase_r (c : string) :
  AString.equalsIgnoreCase c "r" = true <-> c = "r"%string \/ c = "R"%string.
Proof.
  split.
  - destruct c as [ | a [ | a' c' ] ]; cbn [AString.equalsIgnoreCase].
    + discriminate.
    + destruct a as [[] [] [] [] [] [] [] []]; vm_compute; intros H;
        first [ discriminate H | left; reflexivity | right; reflexivity ].
    + rewrite andb_false_r. discriminate.
  - intros [-> | ->]; reflexivity.
Qed.

Lemma loop_commands_read (i : Inputs) (g : Globals) (c : string) :
  command_token i = Some c -> AString.equalsIgnoreCase c "r" = true ->
  loop_commands i g = (tt, g, reading_trace (adc_command i) g).
Proof.
  intros Hc Hr. rewrite loop_commands_run, Hc.
  apply equalsIgnoreCase_r in Hr. destruct Hr as [-> | ->]; reflexivity.
Qed.

Lemma loop_commands_stop (i : Inputs) (g : Globals) :
  command_token i = Some "st"%string ->
  loop_commands i g
  = (tt, {| lastReadingTime := lastReadingTime g; isRunning := false;
            temperature := temperature g |},
     [SerialPrintln "Execution halted."]).
Proof. intros Hc. rewrite loop_commands_run, Hc. reflexivity. Qed.

Lemma loop_commands_idle (i : Inputs) (g : Globals) :
  command_token i = None -> loop_commands i g = (tt, g, []).
Proof. intros Hc. rewrite loop_commands_run, Hc. reflexivity. Qed.

(** The command interpreter never touches the scheduling state. *)
Lemma loop_commands_frame (i : Inputs) (g : Globals) :
  lastReadingTime (globals_after (loop_commands i) g) = lastReadingTime g /\
  temperature (globals_after (loop_commands i) g) = temperature g.
Proof.
  unfold globals_after. rewrite loop_commands_run.
  destruct (command_token i) as [ c | ]; [ | split; reflexivity ].
  destruct (c =? "st")%string; [ split; reflexivity | ].
  destruct (c =? "s")%string; [ split; reflexivity | ].
  destruct (c =? "c")%string; [ split; reflexivity | ].
  destruct (AString.equalsIgnoreCase c "r"); split; reflexivity.
Qed.

Lemma log_actions_app (t1 t2 : list Event) :
  log_actions (t1 ++ t2) = (log_actions t1 + log_actions t2)%nat.
Proof. unfold log_actions. rewrite filter_app, length_app. reflexivity. Qed.

Lemma acquisitions_app (t1 t2 : list Event) :
  acquisitions (t1 ++ t2) = (acquisitions t1 + acquisitions t2)%nat.
Proof. unfold acquisitions. rewrite filter_app, length_app. reflexivity. Qed.

Lemma reading_trace_counts (analogRead : Pin -> Z) (g : Globals) :
  log_actions (reading_trace analogRead g) = 0%nat /\
  acquisitions (reading_trace analogRead g) = 1%nat.
Proof.
  unfold reading_trace, trace_of. rewrite readAllSensors_run. cbn [snd]. cbv zeta.
  unfold trace_of. rewrite evaluateOverallQuality_run. cbn [snd].
  rewrite log_actions_app, acquisitions_app.
  match goal with
  | |- context [if ?b then _ else _] => destruct b
  end; split; reflexivity.
Qed.

Lemma loop_commands_counts (i : Inputs) (g : Globals) :
  log_actions (trace_of (loop_commands i) g) = 0%nat /\
  (acquisitions (trace_of (loop_commands i) g) <= 1)%nat.
Proof.
  unfold trace_of. rewrite loop_commands_run.
  destruct (command_token i) as [ c | ]; [ | split; [ reflexivity | cbn; lia ] ].
  destruct (c =? "st")%string; [ split; [ reflexivity | cbn; lia ] | ].
  destruct (c =? "s")%string; [ split; [ reflexivity | cbn; lia ] | ].
  destruct (c =? "c")%string; [ split; [ reflexivity | vm_compute; lia ] | ].
  destruct (AString.equalsIgnoreCase c "r"); [ | split; [ reflexivity | cbn; lia ] ].
  cbn [snd]. destruct (reading_trace_counts (adc_command i) g) as [-> ->].
  split; [ reflexivity | lia ].
Qed.

Lemma at_ten_test (now : DateTime) :
  (hour now =? 10) && (minute now =? 0) && (second now =? 0) = true <-> at_ten now.
Proof. unfold at_ten. rewrite !andb_true_iff, !Z.eqb_eq. tauto. Qed.

Lemma loop_periodic_log (i : Inputs) (g : Globals) :
  log_actions (trace_of (loop_periodic i) g) = 0%nat.
Proof.
  unfold trace_of. rewrite loop_periodic_run.
  destruct (readingInterval <=? ulong_sub (millis_cond i) (lastReadingTime g));
    [ cbn [snd]; apply reading_trace_counts | reflexivity ].
Qed.

(** How often one pass logs: once at ten o'clock while running, never
    otherwise. *)
Lemma loop_log_actions (i : Inputs) (g : Globals) :
  log_actions (trace_of (loop i) g)
  = if isRunning (globals_after (loop_commands i) g)
       && ((hour (rtc_now i) =? 10) && (minute (rtc_now i) =? 0) && (second (rtc_now i) =? 0))
    then 1%nat else 0%nat.
Proof.
  unfold trace_of at 1. rewrite loop_run. cbv zeta.
  destruct (loop_commands_counts i g) as [Hc _].
  destruct (isRunning (globals_after (loop_commands i) g)); cbn [snd andb].
  - rewrite !log_actions_app, Hc, loop_periodic_log.
    unfold trace_of. rewrite loop_daily_run. cbn [snd].
    destruct ((hour (rtc_now i) =? 10) && (minute (rtc_now i) =? 0)
              && (second (rtc_now i) =? 0)); reflexivity.
  - rewrite log_actions_app, Hc. reflexivity.
Qed.

Lemma log_actions_In (tr : list Event) :
  In (SerialPrint "Logging Sensor Values at: ") tr <-> log_actions tr <> 0%nat.
Proof.
  unfold log_actions. split.
  - intros Hin Hlen.
    assert (Hf : In (SerialPrint "Logging Sensor Values at: ") (filter is_log tr)).
    { apply filter_In. split; [ exact Hin | reflexivity ]. }
    destruct (filter is_log tr); [ exact Hf | discriminate Hlen ].
  - intros Hlen.
    destruct (filter is_log tr) as [ | e rest ] eqn:Ef; [ exfalso; apply Hlen; reflexivity | ].
    assert (He : In e (filter is_log tr)) by (rewrite Ef; left; reflexivity).
    apply filter_In in He. destruct He as [Hin Hlog].
    destruct e as [ s | s | x d | x d | ms ]; try discriminate Hlog.
    cbn [is_log] in Hlog. apply String.eqb_eq in Hlog. subst s. exact Hin.
Qed.

(* ================================================================== *)
(** ** The daily trigger *)

(** C4.  In a pass through [loop] that is running once the commands have
    been handled, the log action happens exactly when the clock reads hour
    10, minute 0, second 0, and then once; at any other reading of the clock,
    such as 10:00:01 or 09:59:59, no pass logs. *)
Theorem daily_log_exactly_at_ten :
  forall (i : Inputs) (g : Globals),
    isRunning (globals_after (loop_commands i) g) = true ->
    (In (SerialPrint "Logging Sensor Values at: ") (trace_of (loop i) g)
       <-> at_ten (rtc_now i)) /\
    (at_ten (rtc_now i) -> log_actions (trace_of (loop i) g) = 1%nat) /\
    (~ at_ten (rtc_now i) -> log_actions (trace_of (loop i) g) = 0%nat) /\
    (forall (i' : Inputs) (g' : Globals),
        rtc_now i' = mkDateTime 10 0 1 \/ rtc_now i' = mkDateTime 9 59 59 ->
        log_actions (trace_of (loop i') g') = 0%nat).
Proof.
  intros i g Hrun.
  pose proof (loop_log_actions i g) as Hlog. rewrite Hrun in Hlog. cbn [andb] in Hlog.
  pose proof (at_ten_test (rtc_now i)) as Hten.
  rewrite log_actions_In, Hlog.
  destruct ((hour (rtc_now i) =? 10) && (minute (rtc_now i) =? 0)
            && (second (rtc_now i) =? 0)).
  - assert (H10 : at_ten (rtc_now i)) by (apply Hten; reflexivity).
    split; [ split; [ intros _; exact H10 | intros _; discriminate ] | ].
    split; [ intros _; reflexivity | ].
    split; [ intros Hn; exfalso; apply Hn; exact H10 | ].
    intros i' g' Hnow. rewrite loop_log_actions.
    destruct Hnow as [-> | ->]; cbn [hour minute second]; rewrite andb_false_r; reflexivity.
  - assert (H10 : ~ at_ten (rtc_now i)) by (intros H; apply Hten in H; discriminate H).
    split; [ split; [ intros H; exfalso; apply H; reflexivity | intros H; exfalso; exact (H10 H) ] | ].
    split; [ intros H; exfalso; exact (H10 H) | ].
    split; [ intros _; reflexivity | ].
    intros i' g' Hnow. rewrite loop_log_actions.
    destruct Hnow as [-> | ->]; cbn [hour minute second]; rewrite andb_false_r; reflexivity.
Qed.

Lemma daily_log_exactly_at_ten_witness :
  let i := {| Serial_available := 0; Serial_readStringUntil := "";
              rtc_now := mkDateTime 10 0 0;
              millis_cond := 1000; millis_assign := 1000;
              adc_command := fun _ => 0; adc_periodic := fun _ => 0 |} in
  log_actions (trace_of (loop i) initial) = 1%nat.
Proof.
  intros i.
  apply (proj1 (proj2 (daily_log_exactly_at_ten i initial eq_refl))).
  unfold at_ten. cbn. auto.
Defined.

(* ================================================================== *)
(** ** The read command *)

(** C5.  When the command token of a pass is "r" in either case, the pass
    starts with a reading of all sensors, whatever the run state and the
    timers; the run state is left as it was.  After "st", a pass with "r"
    still reads the sensors although the sketch is halted: it does the
    reading, pauses, and stays halted. *)
Theorem read_command_reads_at_once :
  forall (i : Inputs) (g : Globals) (command : string),
    command_token i = Some command ->
    AString.equalsIgnoreCase command "r" = true ->
    (exists rest : list Event,
        trace_of (loop i) g = reading_trace (adc_command i) g ++ rest) /\
    (1 <= acquisitions (trace_of (loop i) g))%nat /\
    isRunning (globals_after (loop_commands i) g) = isRunning g /\
    (forall (i0 : Inputs) (g0 : Globals),
        command_token i0 = Some "st"%string ->
        let halted := globals_after (loop i0) g0 in
        isRunning halted = false /\
        loop i halted = (tt, halted, reading_trace (adc_command i) halted ++ [Delay 100]) /\
        trace_of (run_loop [i0; i]) g0
        = [SerialPrintln "Execution halted."; Delay 100]
          ++ reading_trace (adc_command i) halted ++ [Delay 100]).
Proof.
  intros i g command Hc Hr.
  assert (Hcmd : forall g', loop_commands i g' = (tt, g', reading_trace (adc_command i) g')).
  { intros g'. exact (loop_commands_read i g' command Hc Hr). }
  assert (Htrace : exists rest : list Event,
             trace_of (loop i) g = reading_trace (adc_command i) g ++ rest).
  { unfold trace_of at 1. rewrite loop_run. cbv zeta.
    unfold globals_after, trace_of. rewrite Hcmd. cbn [fst snd].
    destruct (isRunning g); cbn [snd]; eexists; reflexivity. }
  split; [ exact Htrace | ].
  split.
  { destruct Htrace as [rest ->]. rewrite acquisitions_app.
    destruct (reading_trace_counts (adc_command i) g) as [_ ->]. lia. }
  split.
  { unfold globals_after. rewrite Hcmd. reflexivity. }
  intros i0 g0 Hst halted.
  assert (Hhalt : loop i0 g0
                  = (tt, {| lastReadingTime := lastReadingTime g0; isRunning := false;
                            temperature := temperature g0 |},
                     [SerialPrintln "Execution halted."; Delay 100])).
  { rewrite loop_run. cbv zeta. unfold globals_after, trace_of.
    rewrite (loop_commands_stop i0 g0 Hst). reflexivity. }
  assert (Hoff : isRunning halted = false).
  { unfold halted, globals_after. rewrite Hhalt. reflexivity. }
  assert (Hread : loop i halted
                  = (tt, halted, reading_trace (adc_command i) halted ++ [Delay 100])).
  { rewrite loop_run. cbv zeta. unfold globals_after, trace_of.
    rewrite Hcmd. cbn [fst snd]. rewrite Hoff. reflexivity. }
  split; [ exact Hoff | ].
  split; [ exact Hread | ].
  unfold trace_of. cbn [run_loop].
  erewrite (run_bind (loop i0) _ g0); [ | exact Hhalt | cbv beta | reflexivity ].
  2: { eapply run_bind; [ | reflexivity | reflexivity ].
       change {| lastReadingTime := lastReadingTime g0; isRunning := false;
                 temperature := temperature g0 |}
         with (snd (fst (tt, {| lastReadingTime := lastReadingTime g0; isRunning := false;
                                temperature := temperature g0 |},
                         [SerialPrintln "Execution halted."; Delay 100]))).
       rewrite <- Hhalt. exact Hread. }
  cbn [snd]. rewrite app_nil_r. reflexivity.
Qed.

Lemma read_command_reads_at_once_witness :
  let i := {| Serial_available := 3; Serial_readStringUntil := " R" ++ String "013" "";
              rtc_now := mkDateTime 12 30 0;
              millis_cond := 1000; millis_assign := 1000;
              adc_command := fun _ => 500; adc_periodic := fun _ => 0 |} in
  let halted := {| lastReadingTime := 0; isRunning := false; temperature := 25.0%f32 |} in
  (1 <= acquisitions (trace_of (loop i) halted))%nat.
Proof.
  intros i halted.
  apply (proj1 (proj2 (read_command_reads_at_once i halted "R" eq_refl eq_refl))).
Defined.

(* ================================================================== *)
(** ** The periodic trigger *)

Lemma ulong_sub_no_wrap (now last : Z) :
  0 <= last -> last <= now -> now < 2 ^ 32 -> ulong_sub now last = now - last.
Proof.
  intros H0 H1 H2. unfold ulong_sub. apply Z.mod_small. lia.
Qed.

Lemma loop_globals (i : Inputs) (g : Globals) :
  globals_after (loop i) g
  = let g1 := globals_after (loop_commands i) g in
    if isRunning g1 then globals_after (loop_periodic i) g1 else g1.
Proof.
  unfold globals_after at 1. rewrite loop_run. cbv zeta.
  destruct (isRunning (globals_after (loop_commands i) g)); reflexivity.
Qed.

Lemma loop_trace (i : Inputs) (g : Globals) :
  trace_of (loop i) g
  = let g1 := globals_after (loop_commands i) g in
    trace_of (loop_commands i) g
    ++ (if isRunning g1
        then trace_of (loop_daily (rtc_now i)) g1 ++ trace_of (loop_periodic i) g1
        else [Delay 100]).
Proof.
  unfold trace_of at 1. rewrite loop_run. cbv zeta.
  destruct (isRunning (globals_after (loop_commands i) g)); reflexivity.
Qed.

Lemma loop_periodic_globals (i : Inputs) (g : Globals) :
  lastReadingTime (globals_after (loop_periodic i) g)
  = if readingInterval <=? ulong_sub (millis_cond i) (lastReadingTime g)
    then millis_assign i else lastReadingTime g.
Proof.
  unfold globals_after. rewrite loop_periodic_run.
  destruct (readingInterval <=? ulong_sub (millis_cond i) (lastReadingTime g)); reflexivity.
Qed.

Lemma loop_periodic_trace (i : Inputs) (g : Globals) :
  trace_of (loop_periodic i) g
  = if readingInterval <=? ulong_sub (millis_cond i) (lastReadingTime g)
    then reading_trace (adc_periodic i) g else [].
Proof.
  unfold trace_of. rewrite loop_periodic_run.
  destruct (readingInterval <=? ulong_sub (millis_cond i) (lastReadingTime g)); reflexivity.
Qed.

Lemma loop_daily_acquisitions (now : DateTime) (g : Globals) :
  acquisitions (trace_of (loop_daily now) g) = 0%nat.
Proof.
  unfold trace_of. rewrite loop_daily_run. cbn [snd].
  destruct ((hour now =? 10) && (minute now =? 0) && (second now =? 0)); reflexivity.
Qed.

(** The scheduling state and the number of readings after one pass. *)
Lemma loop_schedule (i : Inputs) (g : Globals) :
  let running := isRunning (globals_after (loop_commands i) g) in
  let due := readingInterval <=? ulong_sub (millis_cond i) (lastReadingTime g) in
  lastReadingTime (globals_after (loop i) g)
  = (if running && due then millis_assign i else lastReadingTime g) /\
  acquisitions (trace_of (loop i) g)
  = (acquisitions (trace_of (loop_commands i) g) + if running && due then 1 else 0)%nat /\
  (running && due = true ->
   exists pre : list Event, trace_of (loop i) g = pre ++ reading_trace (adc_periodic i) g).
Proof.
  intros running due. subst running due.
  destruct (loop_commands_frame i g) as [Hlast Htemp].
  rewrite loop_globals, loop_trace. cbv zeta.
  destruct (isRunning (globals_after (loop_commands i) g)); cbn [andb].
  - rewrite loop_periodic_globals, loop_periodic_trace, Hlast.
    rewrite !acquisitions_app, loop_daily_acquisitions.
    destruct (readingInterval <=? ulong_sub (millis_cond i) (lastReadingTime g)).
    + rewrite (reading_trace_temperature _ _ g Htemp).
      destruct (reading_trace_counts (adc_periodic i) g) as [_ ->].
      split; [ reflexivity | ]. split; [ reflexivity | ].
      intros _. eexists. rewrite app_assoc. reflexivity.
    + split; [ reflexivity | ]. split; [ reflexivity | discriminate ].
  - split; [ exact Hlast | ]. split; [ | discriminate ].
    rewrite acquisitions_app. reflexivity.
Qed.

(** C6.  In a pass through [loop] that is running, the periodic reading
    happens exactly when [millis() - lastReadingTime >= 60000] (the
    subtraction being that of [unsigned long], which is the plain difference
    as long as the counter has not wrapped); when it happens,
    [lastReadingTime] becomes the current [millis()] and all sensors are
    read; when it does not, [lastReadingTime] keeps its value and no reading
    is added. *)
Theorem periodic_reading_when_due :
  forall (i : Inputs) (g : Globals),
    isRunning (globals_after (loop_commands i) g) = true ->
    let elapsed := ulong_sub (millis_cond i) (lastReadingTime g) in
    (60000 <= elapsed ->
       lastReadingTime (globals_after (loop i) g) = millis_assign i /\
       acquisitions (trace_of (loop i) g)
       = S (acquisitions (trace_of (loop_commands i) g)) /\
       exists pre : list Event,
         trace_of (loop i) g = pre ++ reading_trace (adc_periodic i) g) /\
    (elapsed < 60000 ->
       lastReadingTime (globals_after (loop i) g) = lastReadingTime g /\
       acquisitions (trace_of (loop i) g) = acquisitions (trace_of (loop_commands i) g)) /\
    (0 <= lastReadingTime g -> lastReadingTime g <= millis_cond i -> millis_cond i < 2 ^ 32 ->
       elapsed = millis_cond i - lastReadingTime g).
Proof.
  intros i g Hrun elapsed. subst elapsed.
  destruct (loop_schedule i g) as [Hlast [Hacq Hpre]].
  rewrite Hrun in Hlast, Hacq, Hpre. cbn [andb] in Hlast, Hacq, Hpre.
  unfold readingInterval in Hlast, Hacq, Hpre.
  split; [ | split ].
  - intros Hdue. apply Z.leb_le in Hdue. rewrite Hdue in Hlast, Hacq, Hpre.
    split; [ exact Hlast | ]. split; [ rewrite Hacq; lia | ].
    apply Hpre. reflexivity.
  - intros Hnot. apply Z.leb_gt in Hnot. rewrite Hnot in Hlast, Hacq.
    split; [ exact Hlast | rewrite Hacq; lia ].
  - intros H0 H1 H2. apply ulong_sub_no_wrap; assumption.
Qed.

Lemma periodic_reading_when_due_witness :
  let i := {| Serial_available := 0; Serial_readStringUntil := "";
              rtc_now := mkDateTime 12 30 0;
              millis_cond := 60000; millis_assign := 60001;
              adc_command := fun _ => 0; adc_periodic := fun _ => 500 |} in
  lastReadingTime (globals_after (loop i) initial) = 60001 /\
  acquisitions (trace_of (loop i) initial) = 1%nat.
Proof.
  intros i.
  destruct (proj1 (periodic_reading_when_due i initial eq_refl)) as [Hlast [Hacq _]].
  - vm_compute. discriminate.
  - split; [ exact Hlast | exact Hacq ].
Defined.

(* ================================================================== *)
(** ** The read command and the schedule *)

(** C10.  A reading does not change the globals, so [lastReadingTime] is the
    same after a reading started by the "r" command; the pass then ends with
    the globals it would have ended with had no command arrived; and in any
    pass [lastReadingTime] changes only when the periodic trigger fires,
    which sets it to [millis()]. *)
Theorem read_command_keeps_schedule :
  (forall (analogRead : Pin -> Z) (g : Globals),
      globals_after (readAllSensors analogRead) g = g) /\
  (forall (i : Inputs) (g : Globals) (command : string),
      command_token i = Some command ->
      AString.equalsIgnoreCase command "r" = true ->
      lastReadingTime (globals_after (loop_commands i) g) = lastReadingTime g /\
      globals_after (loop i) g = globals_after (loop (without_command i)) g) /\
  (forall (i : Inputs) (g : Globals),
      lastReadingTime (globals_after (loop i) g) <> lastReadingTime g ->
      isRunning (globals_after (loop_commands i) g) = true /\
      60000 <= ulong_sub (millis_cond i) (lastReadingTime g) /\
      lastReadingTime (globals_after (loop i) g) = millis_assign i).
Proof.
  split; [ exact readAllSensors_globals | ]. split.
  - intros i g command Hc Hr.
    pose proof (loop_commands_read i g command Hc Hr) as Hcmd.
    assert (Hidle : loop_commands (without_command i) g = (tt, g, [])).
    { apply loop_commands_idle. reflexivity. }
    split.
    + unfold globals_after. rewrite Hcmd. reflexivity.
    + rewrite !loop_globals. cbv zeta.
      replace (globals_after (loop_commands i) g) with g
        by (unfold globals_after; rewrite Hcmd; reflexivity).
      replace (globals_after (loop_commands (without_command i)) g) with g
        by (unfold globals_after; rewrite Hidle; reflexivity).
      destruct (isRunning g); [ | reflexivity ].
      unfold globals_after. rewrite !loop_periodic_run. reflexivity.
  - intros i g Hchanged.
    destruct (loop_schedule i g) as [Hlast _].
    unfold readingInterval in Hlast.
    destruct (isRunning (globals_after (loop_commands i) g)); cbn [andb] in Hlast;
      [ | exfalso; exact (Hchanged Hlast) ].
    destruct (60000 <=? ulong_sub (millis_cond i) (lastReadingTime g)) eqn:Hdue;
      [ | exfalso; exact (Hchanged Hlast) ].
    apply Z.leb_le in Hdue. auto.
Qed.

Lemma read_command_keeps_schedule_witness :
  let i := {| Serial_available := 2; Serial_readStringUntil := "r";
              rtc_now := mkDateTime 12 30 0;
              millis_cond := 59999; millis_assign := 59999;
              adc_command := fun _ => 500; adc_periodic := fun _ => 0 |} in
  lastReadingTime (globals_after (loop_commands i) initial) = lastReadingTime initial /\
  globals_after (loop i) initial = globals_after (loop (without_command i)) initial.
Proof.
  intros i.
  apply (proj1 (proj2 read_command_keeps_schedule) i initial "r"%string eq_refl eq_refl).
Defined.

(* ================================================================== *)
(** ** The sensors over the range of the converter *)

(** A check made at every number below [n] holds at every number below [n]. *)
Lemma range_forall (n : nat) (P : Z -> bool) :
  forallb (fun k : nat => P (Z.of_nat k)) (seq 0 n) = true ->
  forall z : Z, 0 <= z < Z.of_nat n -> P z = true.
Proof.
  intros Hall z Hz. rewrite forallb_forall in Hall.
  specialize (Hall (Z.to_nat z)). rewrite Z2Nat.id in Hall by lia.
  apply Hall. apply in_seq. lia.
Qed.

Lemma F32_ltb_leb (x y : spec_float) : F32.ltb x y = true -> F32.leb x y = true.
Proof.
  unfold F32.ltb, F32.leb, SFltb, SFleb.
  destruct (SFcompare x y) as [ [] | ]; try discriminate; reflexivity.
Qed.

Lemma strictly_monotone_from_steps (f : Z -> float) (n : Z) :
  (forall r, 0 <= r < n -> F32.ltb (f r) (f (r + 1)) = true) ->
  forall r1 r2, 0 <= r1 -> r1 < r2 -> r2 <= n -> F32.ltb (f r1) (f r2) = true.
Proof.
  intros Hstep r1 r2 H0 H12 Hn.
  replace r2 with (r1 + 1 + Z.of_nat (Z.to_nat (r2 - r1 - 1))) in * by lia.
  induction (Z.to_nat (r2 - r1 - 1)) as [ | k IH ].
  - rewrite Z.add_0_r. apply Hstep. lia.
  - apply F32_ltb_leb_trans with (y := f (r1 + 1 + Z.of_nat k)).
    + apply IH; lia.
    + apply F32_ltb_leb.
      replace (r1 + 1 + Z.of_nat (S k)) with (r1 + 1 + Z.of_nat k + 1) by lia.
      apply Hstep. lia.
Qed.

Lemma pHQualityOf_adc (raw : Z) :
  0 <= raw <= 1023 ->
  pHQualityOf raw
  = if raw <=? 468 then "Acidic - Bad"%string
    else if (471 <=? raw) && (raw <=? 511) then "Good"%string
    else "Bad - Alkaline"%string.
Proof.
  intros Hr. apply String.eqb_eq.
  apply (range_forall 1024
           (fun raw => String.eqb (pHQualityOf raw)
                         (if raw <=? 468 then "Acidic - Bad"%string
                          else if (471 <=? raw) && (raw <=? 511) then "Good"%string
                          else "Bad - Alkaline"%string))).
  - vm_compute. reflexivity.
  - lia.
Qed.

Lemma turbQualityOf_adc (raw : Z) :
  0 <= raw <= 1023 ->
  turbQualityOf raw = if 410 <=? raw then "Good"%string else "Bad"%string.
Proof.
  intros Hr. apply String.eqb_eq.
  apply (range_forall 1024
           (fun raw => String.eqb (turbQualityOf raw)
                         (if 410 <=? raw then "Good"%string else "Bad"%string))).
  - vm_compute. reflexivity.
  - lia.
Qed.

Lemma tdsQualityOf_adc (raw : Z) (g : Globals) :
  temperature g = 25.0%f32 -> 0 <= raw <= 1023 ->
  tdsQualityOf raw g = if raw <=? 357 then "Good"%string else "Bad"%string.
Proof.
  intros Ht Hr. unfold tdsQualityOf, value_of. rewrite calculateTDS_run. cbn [fst].
  rewrite Ht. apply String.eqb_eq.
  apply (range_forall 1024
           (fun raw => String.eqb (evaluateTDSQuality (tdsFromRaw_spec raw 25.0%f32))
                         (if raw <=? 357 then "Good"%string else "Bad"%string))).
  - vm_compute. reflexivity.
  - lia.
Qed.

Lemma is_pzero_eq (x : float) :
  match x with S754_zero false => true | _ => false end = true -> x = 0.0%f32.
Proof. destruct x as [ [] | [] | | [] m e ]; try discriminate; reflexivity. Qed.

(** X1.  Over the raw values 0..1023 the pH label is "Acidic - Bad" up to
    raw 468, "Good" from 471 to 511, and "Bad - Alkaline" for 469, 470 and
    from 512 on: the two raw values between the acidic and the good range
    fall in the gap between the thresholds 2.29 and 2.3 and are labelled
    alkaline. *)
Theorem pH_label_by_raw :
  forall raw : Z, 0 <= raw <= 1023 ->
    (raw <= 468 -> pHQualityOf raw = "Acidic - Bad"%string) /\
    (471 <= raw <= 511 -> pHQualityOf raw = "Good"%string) /\
    (469 <= raw <= 470 \/ 512 <= raw -> pHQualityOf raw = "Bad - Alkaline"%string).
Proof.
  intros raw Hr. rewrite (pHQualityOf_adc raw Hr).
  split; [ | split ].
  - intros H. apply Z.leb_le in H. rewrite H. reflexivity.
  - intros H. replace (raw <=? 468) with false by (symmetry; apply Z.leb_gt; lia).
    replace (471 <=? raw) with true by (symmetry; apply Z.leb_le; lia).
    replace (raw <=? 511) with true by (symmetry; apply Z.leb_le; lia).
    reflexivity.
  - intros H. replace (raw <=? 468) with false by (symmetry; apply Z.leb_gt; lia).
    destruct H as [H | H].
    + replace (471 <=? raw) with false by (symmetry; apply Z.leb_gt; lia). reflexivity.
    + replace (raw <=? 511) with false by (symmetry; apply Z.leb_gt; lia).
      rewrite andb_false_r. reflexivity.
Qed.

Lemma pH_label_by_raw_witness :
  pHQualityOf 469 = "Bad - Alkaline"%string /\ pHQualityOf 471 = "Good"%string.
Proof.
  split.
  - apply (proj2 (proj2 (pH_label_by_raw 469 ltac:(lia)))). lia.
  - apply (proj1 (proj2 (pH_label_by_raw 471 ltac:(lia)))). lia.
Defined.

(** X2.  Over the raw values 0..1023 the pH value is the sentinel 0.0 up to
    raw 204 and from raw 614 on, and lies between 6.0 and 9.0 for every raw
    value in between. *)
Theorem pH_value_by_raw :
  forall raw : Z, 0 <= raw <= 1023 ->
    (raw <= 204 \/ 614 <= raw -> pHValueOf raw = 0.0%f32) /\
    (205 <= raw <= 613 ->
       (6.0 <=? pHValueOf raw)%f32 = true /\ (pHValueOf raw <=? 9.0)%f32 = true).
Proof.
  intros raw Hr.
  pose (P := fun raw : Z =>
                    if (raw <=? 204) || (614 <=? raw)
                    then match pHValueOf raw with S754_zero false => true | _ => false end
                    else (6.0 <=? pHValueOf raw)%f32 && (pHValueOf raw <=? 9.0)%f32).
  assert (Hall : P raw = true)
    by (apply (range_forall 1024 P); [ vm_compute; reflexivity | lia ]).
  unfold P in Hall. clear P. split.
  - intros H.
    replace ((raw <=? 204) || (614 <=? raw)) with true in Hall.
    + apply is_pzero_eq. exact Hall.
    + symmetry. apply orb_true_iff. rewrite !Z.leb_le. exact H.
  - intros H.
    replace ((raw <=? 204) || (614 <=? raw)) with false in Hall.
    + apply andb_prop in Hall. exact Hall.
    + symmetry. apply orb_false_iff. rewrite !Z.leb_gt. lia.
Qed.

Lemma pH_value_by_raw_witness :
  pHValueOf 1023 = 0.0%f32 /\ (6.0 <=? pHValueOf 500)%f32 = true.
Proof.
  split.
  - apply (proj1 (pH_value_by_raw 1023 ltac:(lia))). lia.
  - apply (proj2 (pH_value_by_raw 500 ltac:(lia))). lia.
Defined.

(** X3.  The label and the value agree only on the good range: whenever the
    label of a raw sample is "Good" its pH value lies between 6.9 and 7.5;
    but every raw sample from 205 to 409 has a pH value between 7.0 and 9.0
    and the label "Acidic - Bad". *)
Theorem pH_label_against_value :
  forall raw : Z, 0 <= raw <= 1023 ->
    (pHQualityOf raw = "Good"%string ->
       (6.9 <=? pHValueOf raw)%f32 = true /\ (pHValueOf raw <=? 7.5)%f32 = true) /\
    (205 <= raw <= 409 ->
       pHQualityOf raw = "Acidic - Bad"%string /\
       (7.0 <=? pHValueOf raw)%f32 = true /\ (pHValueOf raw <=? 9.0)%f32 = true).
Proof.
  intros raw Hr.
  pose (P := fun raw : Z =>
                    (if String.eqb (pHQualityOf raw) "Good"
                     then (6.9 <=? pHValueOf raw)%f32 && (pHValueOf raw <=? 7.5)%f32
                     else true)
                    && (if (205 <=? raw) && (raw <=? 409)
                        then String.eqb (pHQualityOf raw) "Acidic - Bad"
                             && (7.0 <=? pHValueOf raw)%f32 && (pHValueOf raw <=? 9.0)%f32
                        else true)).
  assert (Hall : P raw = true)
    by (apply (range_forall 1024 P); [ vm_compute; reflexivity | lia ]).
  unfold P in Hall. clear P. apply andb_prop in Hall. destruct Hall as [Hgood Hacid]. split.
  - intros H. rewrite H in Hgood. cbn in Hgood. apply andb_prop in Hgood. exact Hgood.
  - intros H.
    replace ((205 <=? raw) && (raw <=? 409)) with true in Hacid
      by (symmetry; apply andb_true_iff; rewrite !Z.leb_le; lia).
    apply andb_prop in Hacid. destruct Hacid as [Hacid H9].
    apply andb_prop in Hacid. destruct Hacid as [Hlabel H7].
    apply String.eqb_eq in Hlabel. auto.
Qed.

Lemma pH_label_against_value_witness :
  pHQualityOf 266 = "Acidic - Bad"%string /\
  (7.0 <=? pHValueOf 266)%f32 = true /\ (pHValueOf 266 <=? 9.0)%f32 = true.
Proof.
  apply (proj2 (pH_label_against_value 266 ltac:(lia))). lia.
Defined.

(** X4.  The pH value grows strictly with the raw sample from raw 205 to
    raw 409 and again from raw 410 to raw 613, and drops between the two:
    raw 410 gives a lower pH value than raw 409. *)
Theorem pH_value_increasing_in_two_runs :
  forall raw1 raw2 : Z, raw1 < raw2 ->
    (205 <= raw1 /\ raw2 <= 409) \/ (410 <= raw1 /\ raw2 <= 613) ->
    (pHValueOf raw1 <? pHValueOf raw2)%f32 = true /\
    (pHValueOf 410 <? pHValueOf 409)%f32 = true.
Proof.
  intros raw1 raw2 H12 Hrun. split; [ | vm_compute; reflexivity ].
  destruct Hrun as [[Hlo Hhi] | [Hlo Hhi]].
  - replace raw1 with (raw1 - 205 + 205) by lia. replace raw2 with (raw2 - 205 + 205) by lia.
    apply (strictly_monotone_from_steps (fun r => pHValueOf (r + 205)) 204); try lia.
    intros r Hr. replace (r + 1 + 205) with (r + 205 + 1) by lia.
    apply (range_forall 204
             (fun r => (pHValueOf (r + 205) <? pHValueOf (r + 205 + 1))%f32));
      [ vm_compute; reflexivity | lia ].
  - replace raw1 with (raw1 - 410 + 410) by lia. replace raw2 with (raw2 - 410 + 410) by lia.
    apply (strictly_monotone_from_steps (fun r => pHValueOf (r + 410)) 203); try lia.
    intros r Hr. replace (r + 1 + 410) with (r + 410 + 1) by lia.
    apply (range_forall 203
             (fun r => (pHValueOf (r + 410) <? pHValueOf (r + 410 + 1))%f32));
      [ vm_compute; reflexivity | lia ].
Qed.

Lemma pH_value_increasing_in_two_runs_witness :
  (pHValueOf 205 <? pHValueOf 409)%f32 = true.
Proof.
  apply (proj1 (pH_value_increasing_in_two_runs 205 409 ltac:(lia) ltac:(lia))).
Defined.

(** X5.  Over the raw values 0..1023 the turbidity label is "Good" exactly
    from raw 410 on: the upper limit 5.0 of the good range is never exceeded
    by a converted sample, so no raw value is "Bad" for being too high. *)
Theorem turbidity_label_by_raw :
  forall raw : Z, 0 <= raw <= 1023 ->
    (turbQualityOf raw = "Good"%string <-> 410 <= raw) /\
    (turbQualityOf raw = "Bad"%string <-> raw <= 409).
Proof.
  intros raw Hr. rewrite (turbQualityOf_adc raw Hr).
  destruct (410 <=? raw) eqn:E.
  - apply Z.leb_le in E. split; split; try discriminate; intros; try reflexivity; lia.
  - apply Z.leb_gt in E. split; split; try discriminate; intros; try reflexivity; lia.
Qed.

Lemma turbidity_label_by_raw_witness :
  turbQualityOf 1023 = "Good"%string.
Proof.
  apply (proj1 (turbidity_label_by_raw 1023 ltac:(lia))). lia.
Defined.

(** X6.  At the temperature 25.0 the sketch starts with, the TDS value grows
    strictly with the raw sample over 0..1023, is never negative, and its
    label is "Good" exactly up to raw 357. *)
Theorem tds_by_raw_at_25 :
  forall g : Globals, temperature g = 25.0%f32 ->
    (forall raw1 raw2 : Z, 0 <= raw1 -> raw1 < raw2 -> raw2 <= 1023 ->
       (value_of (calculateTDS raw1) g <? value_of (calculateTDS raw2) g)%f32 = true) /\
    (forall raw : Z, 0 <= raw <= 1023 ->
       (0.0 <=? value_of (calculateTDS raw) g)%f32 = true /\
       (tdsQualityOf raw g = "Good"%string <-> raw <= 357) /\
       (tdsQualityOf raw g = "Bad"%string <-> 358 <= raw)).
Proof.
  intros g Ht.
  assert (Hval : forall raw, value_of (calculateTDS raw) g = tdsFromRaw_spec raw 25.0%f32).
  { intros raw. unfold value_of. rewrite calculateTDS_run. cbn [fst]. rewrite Ht. reflexivity. }
  split.
  - intros raw1 raw2 H0 H12 Hn. rewrite !Hval.
    apply (strictly_monotone_from_steps (fun r => tdsFromRaw_spec r 25.0%f32) 1023); try lia.
    intros r Hr.
    apply (range_forall 1023
             (fun r => (tdsFromRaw_spec r 25.0 <? tdsFromRaw_spec (r + 1) 25.0)%f32));
      [ vm_compute; reflexivity | lia ].
  - intros raw Hr. split.
    + rewrite Hval.
      apply (range_forall 1024 (fun r => (0.0 <=? tdsFromRaw_spec r 25.0)%f32));
        [ vm_compute; reflexivity | lia ].
    + rewrite (tdsQualityOf_adc raw g Ht Hr).
      destruct (raw <=? 357) eqn:E.
      * apply Z.leb_le in E. split; split; try discriminate; intros; try reflexivity; lia.
      * apply Z.leb_gt in E. split; split; try discriminate; intros; try reflexivity; lia.
Qed.

Lemma tds_by_raw_at_25_witness :
  (value_of (calculateTDS 357) initial <? value_of (calculateTDS 358) initial)%f32 = true.
Proof.
  apply (proj1 (tds_by_raw_at_25 initial eq_refl)); lia.
Defined.

(** X7.  Over the raw values 0..1023 the voltage grows strictly with the raw
    sample, for the scale 1023.0 as for the scale 1024.0: two different raw
    samples never give the same voltage. *)
Theorem voltageOf_strictly_increasing :
  forall (fullScaleRaw : float) (raw1 raw2 : Z),
    In fullScaleRaw [1023.0%f32; 1024.0%f32] ->
    0 <= raw1 -> raw1 < raw2 -> raw2 <= 1023 ->
    (voltageOf raw1 fullScaleRaw 5.0 <? voltageOf raw2 fullScaleRaw 5.0)%f32 = true.
Proof.
  intros fs raw1 raw2 Hfs H0 H12 Hn.
  apply (strictly_monotone_from_steps (fun r => voltageOf r fs 5.0%f32) 1023); try lia.
  intros r Hr.
  apply (range_forall 1023
           (fun r => (voltageOf r fs 5.0 <? voltageOf (r + 1) fs 5.0)%f32)); [ | lia ].
  destruct Hfs as [<- | [<- | []]]; vm_compute; reflexivity.
Qed.

Lemma voltageOf_strictly_increasing_witness :
  (voltageOf 0 1024.0 5.0 <? voltageOf 1023 1024.0 5.0)%f32 = true.
Proof.
  apply (voltageOf_strictly_increasing 1024.0%f32 0 1023); [ simpl; auto | lia | lia | lia ].
Defined.

(** X8.  At the temperature 25.0 and for samples in 0..1023, a reading ends
    with the verdict "Excellent" exactly when the pH sample is in 471..511,
    the turbidity sample is at least 410 and the TDS sample is at most 357;
    any other reading ends with "Poor, Needs Treatment" and the advisory. *)
Theorem reading_verdict_by_raw :
  forall (analogRead : Pin -> Z) (g : Globals),
    temperature g = 25.0%f32 ->
    (forall p : Pin, 0 <= analogRead p <= 1023) ->
    exists pre : list Event,
      List.length pre = 13%nat /\
      reading_trace analogRead g
      = pre ++
        if (471 <=? analogRead pH_PIN) && (analogRead pH_PIN <=? 511)
           && (410 <=? analogRead turbidityPin) && (analogRead tdsPin <=? 357)
        then [ SerialPrintln "Overall Water Quality: Excellent";
               SerialPrintln "------------------------------------------" ]
        else [ SerialPrintln "Overall Water Quality: Poor, Needs Treatment";
               SerialPrintln advisory;
               SerialPrintln "------------------------------------------" ].
Proof.
  intros a g Ht Hrange.
  unfold reading_trace, trace_of. rewrite readAllSensors_run. cbn [snd]. cbv zeta.
  eexists. split; [ | apply f_equal ]; [ reflexivity | ].
  unfold trace_of. rewrite evaluateOverallQuality_run. cbn [snd].
  rewrite overallVerdict_excellent_eqb. unfold overallVerdict.
  fold (pHVoltageOf (a pH_PIN)). fold (pHValueOf (a pH_PIN)). fold (pHQualityOf (a pH_PIN)).
  fold (turbQualityOf (a turbidityPin)). fold (tdsQualityOf (a tdsPin) g).
  rewrite (pHQualityOf_adc _ (Hrange pH_PIN)), (turbQualityOf_adc _ (Hrange turbidityPin)),
    (tdsQualityOf_adc _ g Ht (Hrange tdsPin)).
  destruct (a pH_PIN <=? 468) eqn:E1.
  - replace (471 <=? a pH_PIN) with false
      by (symmetry; apply Z.leb_gt; apply Z.leb_le in E1; lia).
    reflexivity.
  - destruct ((471 <=? a pH_PIN) && (a pH_PIN <=? 511)); [ | reflexivity ].
    destruct (410 <=? a turbidityPin); [ | reflexivity ].
    destruct (a tdsPin <=? 357); reflexivity.
Qed.

Lemma reading_verdict_by_raw_witness :
  exists pre : list Event,
    List.length pre = 13%nat /\
    reading_trace (fun p => match p with A0 => 490 | A1 => 300 | A2 => 600 end) initial
    = pre ++ [ SerialPrintln "Overall Water Quality: Excellent";
               SerialPrintln "------------------------------------------" ].
Proof.
  apply (reading_verdict_by_raw
           (fun p => match p with A0 => 490 | A1 => 300 | A2 => 600 end) initial eq_refl).
  intros []; lia.
Defined.

(* ================================================================== *)
(** ** The text of a time of day *)

Lemma string_length_append (s1 s2 : string) :
  String.length (s1 ++ s2) = (String.length s1 + String.length s2)%nat.
Proof. induction s1 as [ | c s1 IH ]; cbn; [ reflexivity | rewrite IH; reflexivity ]. Qed.

Lemma time_eqb_eq (t1 t2 : option (Z * Z * Z)) :
  match t1, t2 with
  | Some (h1, m1, s1), Some (h2, m2, s2) => (h1 =? h2) && (m1 =? m2) && (s1 =? s2)
  | _, _ => false
  end = true -> t1 = t2.
Proof.
  destruct t1 as [ [[h1 m1] s1] | ], t2 as [ [[h2 m2] s2] | ]; try discriminate.
  rewrite !andb_true_iff, !Z.eqb_eq. intros [[-> ->] ->]. reflexivity.
Qed.

(** Formatting, then reading back, checked at every time of day. *)
Lemma formatTime12Hour_checked (h m s : Z) :
  valid_time h m s ->
  parseTime12Hour (formatTime12Hour h m s) = Some (h, m, s) /\
  String.length (formatTime12Hour h m s) = 11%nat.
Proof.
  intros [Hh [Hm Hs]].
  pose (check := fun h m s : Z =>
          match parseTime12Hour (formatTime12Hour h m s) with
          | Some (h', m', s') => (h' =? h) && (m' =? m) && (s' =? s)
          | None => false
          end
          && (String.length (formatTime12Hour h m s) =? 11)%nat).
  assert (Hall : check h m s = true).
  { apply (range_forall 60 (fun s => check h m s)); [ | lia ].
    apply (range_forall 60
             (fun m => forallb (fun k => check h m (Z.of_nat k)) (seq 0 60))); [ | lia ].
    apply (range_forall 24
             (fun h => forallb (fun j => forallb (fun k => check h (Z.of_nat j) (Z.of_nat k))
                                           (seq 0 60)) (seq 0 60))); [ | lia ].
    vm_compute. reflexivity. }
  unfold check in Hall. apply andb_prop in Hall. destruct Hall as [Hparse Hlen].
  split.
  - apply time_eqb_eq. destruct (parseTime12Hour (formatTime12Hour h m s)) as [ [[h' m'] s'] | ];
      [ exact Hparse | discriminate Hparse ].
  - apply Nat.eqb_eq. exact Hlen.
Qed.

(** X9.  For a time of day (hour 0..23, minute and second 0..59) the text is
    the two-digit hour of the 12-hour clock, [(hour + 11) mod 12 + 1], the
    two-digit minute and second, and "AM" before noon, "PM" from noon on; it
    is 11 characters long. *)
Theorem formatTime12Hour_shape :
  forall h m s : Z, valid_time h m s ->
    formatTime12Hour h m s
    = (AString.fmt_02d ((h + 11) mod 12 + 1)%Z ++ ":" ++ AString.fmt_02d m ++ ":"
       ++ AString.fmt_02d s ++ " " ++ (if (h <? 12)%Z then "AM" else "PM"))%string /\
    1 <= (h + 11) mod 12 + 1 <= 12 /\
    String.length (formatTime12Hour h m s) = 11%nat.
Proof.
  intros h m s Hv. split; [ | split ].
  - destruct Hv as [Hh _].
    assert (Hin : In h (map Z.of_nat (seq 0 24))).
    { apply in_map_iff. exists (Z.to_nat h). split; [ lia | apply in_seq; lia ]. }
    cbn in Hin.
    repeat (destruct Hin as [<- | Hin]; [ reflexivity | ]).
    contradiction.
  - pose proof (Z.mod_pos_bound (h + 11) 12). lia.
  - apply (formatTime12Hour_checked h m s Hv).
Qed.

Lemma formatTime12Hour_shape_witness :
  formatTime12Hour 23 5 9
  = (AString.fmt_02d ((23 + 11) mod 12 + 1)%Z ++ ":" ++ AString.fmt_02d 5 ++ ":"
     ++ AString.fmt_02d 9 ++ " " ++ (if (23 <? 12)%Z then "AM" else "PM"))%string.
Proof.
  apply (proj1 (formatTime12Hour_shape 23 5 9 ltac:(unfold valid_time; lia))).
Defined.

(** X10.  The text determines the time of day: reading it back gives the
    hour, minute and second it was made from (12 AM is hour 0, 12 PM is hour
    12), so two different times of day never print alike. *)
Theorem formatTime12Hour_round_trip :
  forall h m s : Z, valid_time h m s ->
    parseTime12Hour (formatTime12Hour h m s) = Some (h, m, s) /\
    (forall h' m' s' : Z, valid_time h' m' s' ->
       formatTime12Hour h m s = formatTime12Hour h' m' s' ->
       h = h' /\ m = m' /\ s = s').
Proof.
  intros h m s Hv.
  destruct (formatTime12Hour_checked h m s Hv) as [Hback _].
  split; [ exact Hback | ].
  intros h' m' s' Hv' Heq.
  destruct (formatTime12Hour_checked h' m' s' Hv') as [Hback' _].
  rewrite Heq, Hback' in Hback. inversion Hback. auto.
Qed.

Lemma formatTime12Hour_round_trip_witness :
  parseTime12Hour (formatTime12Hour 0 0 0) = Some (0, 0, 0) /\
  parseTime12Hour (formatTime12Hour 12 0 0) = Some (12, 0, 0).
Proof.
  split.
  - apply (proj1 (formatTime12Hour_round_trip 0 0 0 ltac:(unfold valid_time; lia))).
  - apply (proj1 (formatTime12Hour_round_trip 12 0 0 ltac:(unfold valid_time; lia))).
Defined.

Lemma fmt_02d_length (n : Z) :
  0 <= n <= 255 -> (2 <= String.length (AString.fmt_02d n) <= 3)%nat.
Proof.
  intros Hn.
  pose (P := fun n : Z => ((2 <=? String.length (AString.fmt_02d n))
                           && (String.length (AString.fmt_02d n) <=? 3))%nat).
  assert (Hall : P n = true)
    by (apply (range_forall 256 P); [ vm_compute; reflexivity | lia ]).
  unfold P in Hall. apply andb_prop in Hall. destruct Hall as [H2 H3].
  apply Nat.leb_le in H2. apply Nat.leb_le in H3. lia.
Qed.

(** X11.  For any three values a [uint8_t] can hold (0..255), whether a
    time of day or not, the text is at most 14 characters long: with its
    terminator it fits the 20 characters of the buffer of line 205. *)
Theorem formatTime12Hour_fits_buffer :
  forall h m s : Z, 0 <= h <= 255 -> 0 <= m <= 255 -> 0 <= s <= 255 ->
    (11 <= String.length (formatTime12Hour h m s) <= 14)%nat /\
    (String.length (formatTime12Hour h m s) + 1 <= 20)%nat.
Proof.
  intros h m s Hh Hm Hs.
  assert (Hlen : (11 <= String.length (formatTime12Hour h m s) <= 14)%nat).
  { unfold formatTime12Hour. cbv zeta.
    rewrite !string_length_append.
    set (h1 := if (12 <=? h) && (12 <? h) then h - 12 else h).
    set (h2 := if h1 =? 0 then 12 else h1).
    assert (Hh2 : 0 <= h2 <= 255).
    { subst h2 h1. destruct ((12 <=? h) && (12 <? h)) eqn:E.
      - apply andb_prop in E. destruct E as [_ E]. apply Z.ltb_lt in E.
        destruct (h - 12 =? 0); lia.
      - destruct (h =? 0); lia. }
    pose proof (fmt_02d_length h2 Hh2). pose proof (fmt_02d_length m Hm).
    pose proof (fmt_02d_length s Hs).
    assert (Hap : String.length (if 12 <=? h then "PM"%string else "AM"%string) = 2%nat)
      by (destruct (12 <=? h); reflexivity).
    rewrite Hap. cbn [String.length]. lia. }
  split; [ exact Hlen | lia ].
Qed.

Lemma formatTime12Hour_fits_buffer_witness :
  (String.length (formatTime12Hour 255 255 255) + 1 <= 20)%nat.
Proof.
  apply (formatTime12Hour_fits_buffer 255 255 255); lia.
Defined.

(* ================================================================== *)
(** ** Several passes *)

Lemma run_loop_globals (i : Inputs) (rest : list Inputs) (g : Globals) :
  globals_after (run_loop (i :: rest)) g
  = globals_after (run_loop rest) (globals_after (loop i) g).
Proof. reflexivity. Qed.

Lemma run_loop_trace (i : Inputs) (rest : list Inputs) (g : Globals) :
  trace_of (run_loop (i :: rest)) g
  = trace_of (loop i) g ++ trace_of (run_loop rest) (globals_after (loop i) g).
Proof. reflexivity. Qed.

Lemma loop_commands_isRunning (i : Inputs) (g : Globals) :
  isRunning (globals_after (loop_commands i) g) = next_run_state (isRunning g) i.
Proof.
  unfold globals_after, next_run_state. rewrite loop_commands_run.
  destruct (command_token i) as [ c | ]; [ | reflexivity ].
  destruct (c =? "st")%string; [ reflexivity | ].
  destruct (c =? "s")%string; [ reflexivity | ].
  destruct (c =? "c")%string; [ reflexivity | ].
  destruct (AString.equalsIgnoreCase c "r"); reflexivity.
Qed.

Lemma loop_periodic_frame (i : Inputs) (g : Globals) :
  isRunning (globals_after (loop_periodic i) g) = isRunning g /\
  temperature (globals_after (loop_periodic i) g) = temperature g.
Proof.
  unfold globals_after. rewrite loop_periodic_run.
  destruct (readingInterval <=? ulong_sub (millis_cond i) (lastReadingTime g));
    split; reflexivity.
Qed.

Lemma loop_isRunning (i : Inputs) (g : Globals) :
  isRunning (globals_after (loop i) g) = next_run_state (isRunning g) i.
Proof.
  rewrite loop_globals. cbv zeta. rewrite <- loop_commands_isRunning.
  destruct (isRunning (globals_after (loop_commands i) g)) eqn:E; [ | exact E ].
  rewrite (proj1 (loop_periodic_frame i _)). exact E.
Qed.


Lemma loop_commands_acquisitions (i : Inputs) (g : Globals) :
  acquisitions (trace_of (loop_commands i) g) = if is_read_command i then 1%nat else 0%nat.
Proof.
  unfold trace_of, is_read_command. rewrite loop_commands_run.
  destruct (command_token i) as [ c | ]; [ | reflexivity ].
  destruct (c =? "st")%string eqn:E1.
  { apply String.eqb_eq in E1. subst c. reflexivity. }
  destruct (c =? "s")%string eqn:E2.
  { apply String.eqb_eq in E2. subst c. reflexivity. }
  destruct (c =? "c")%string eqn:E3.
  { apply String.eqb_eq in E3. subst c. reflexivity. }
  destruct (AString.equalsIgnoreCase c "r"); [ | reflexivity ].
  cbn [snd]. apply reading_trace_counts.
Qed.

(** X12.  After any number of passes the run state is the one the command
    tokens dictate: halted after "st", running after "s", unchanged by every
    other token and by passes without input; the clock, the timers and the
    sensors have no part in it. *)
Theorem run_state_follows_commands :
  forall (inputs : list Inputs) (g : Globals),
    isRunning (globals_after (run_loop inputs) g) = run_state_after inputs (isRunning g).
Proof.
  induction inputs as [ | i rest IH ]; intros g.
  - reflexivity.
  - rewrite run_loop_globals, IH, loop_isRunning. reflexivity.
Qed.


Lemma loop_acquisitions (i : Inputs) (g : Globals) :
  acquisitions (trace_of (loop i) g)
  = ((if is_read_command i then 1 else 0)
     + (if next_run_state (isRunning g) i
           && (readingInterval <=? ulong_sub (millis_cond i) (lastReadingTime g))%Z
        then 1 else 0))%nat.
Proof.
  destruct (loop_schedule i g) as [_ [Hacq _]].
  rewrite loop_commands_acquisitions, loop_commands_isRunning in Hacq. exact Hacq.
Qed.

(** X14.  One pass takes a reading for the "r" command and a reading for the
    periodic trigger when the sketch is running and the interval has
    elapsed, and no other: at most two. *)
Theorem loop_readings_per_pass :
  forall (i : Inputs) (g : Globals),
    acquisitions (trace_of (loop i) g)
    = ((if is_read_command i then 1 else 0)
       + (if next_run_state (isRunning g) i
             && (readingInterval <=? ulong_sub (millis_cond i) (lastReadingTime g))%Z
          then 1 else 0))%nat /\
    (acquisitions (trace_of (loop i) g) <= 2)%nat.
Proof.
  intros i g. rewrite loop_acquisitions. split; [ reflexivity | ].
  destruct (is_read_command i);
    destruct (next_run_state (isRunning g) i
              && (readingInterval <=? ulong_sub (millis_cond i) (lastReadingTime g))); lia.
Qed.

Lemma halted_pass_globals (i : Inputs) (g : Globals) :
  isRunning g = false -> command_token i <> Some "s"%string ->
  globals_after (loop i) g = g.
Proof.
  intros Hoff Hs.
  assert (Hcmd : globals_after (loop_commands i) g = g).
  { unfold globals_after. rewrite loop_commands_run.
    destruct (command_token i) as [ c | ]; [ | reflexivity ].
    destruct (c =? "st")%string.
    { destruct g as [l r t]. cbn in Hoff. subst r. reflexivity. }
    destruct (c =? "s")%string eqn:E2.
    { apply String.eqb_eq in E2. subst c. exfalso. apply Hs. reflexivity. }
    destruct (c =? "c")%string; [ reflexivity | ].
    destruct (AString.equalsIgnoreCase c "r"); reflexivity. }
  rewrite loop_globals. cbv zeta. rewrite Hcmd, Hoff. reflexivity.
Qed.

(** X15.  While the sketch is halted and no "s" arrives, any number of
    passes leaves the globals as they are and logs nothing, even at ten
    o'clock and with the interval long elapsed; the only readings are those
    the "r" command asks for, one each. *)
Theorem halted_passes_only_read_on_command :
  forall (inputs : list Inputs) (g : Globals),
    isRunning g = false ->
    (forall i : Inputs, In i inputs -> command_token i <> Some "s"%string) ->
    globals_after (run_loop inputs) g = g /\
    log_actions (trace_of (run_loop inputs) g) = 0%nat /\
    acquisitions (trace_of (run_loop inputs) g)
    = List.length (filter is_read_command inputs).
Proof.
  induction inputs as [ | i rest IH ]; intros g Hoff Hs.
  - repeat split; reflexivity.
  - assert (Hi : command_token i <> Some "s"%string) by (apply Hs; left; reflexivity).
    assert (Hg : globals_after (loop i) g = g) by (apply halted_pass_globals; assumption).
    destruct (IH g Hoff) as [IHg [IHlog IHacq]].
    { intros j Hj. apply Hs. right. exact Hj. }
    rewrite run_loop_globals, run_loop_trace, Hg.
    rewrite log_actions_app, acquisitions_app, IHlog, IHacq.
    split; [ exact IHg | ]. split.
    + rewrite loop_log_actions.
      replace (isRunning (globals_after (loop_commands i) g)) with false; [ reflexivity | ].
      rewrite loop_commands_isRunning, <- loop_isRunning, Hg, Hoff. reflexivity.
    + rewrite loop_acquisitions.
      replace (next_run_state (isRunning g) i) with false
        by (rewrite <- loop_isRunning, Hg, Hoff; reflexivity).
      cbn [andb filter]. destruct (is_read_command i); cbn [List.length]; lia.
Qed.

Lemma halted_passes_only_read_on_command_witness :
  let halted := {| lastReadingTime := 0; isRunning := false; temperature := 25.0%f32 |} in
  let pass (line : string) :=
    {| Serial_available := 2; Serial_readStringUntil := line;
       rtc_now := mkDateTime 10 0 0;
       millis_cond := 120000; millis_assign := 120000;
       adc_command := fun _ => 500; adc_periodic := fun _ => 500 |} in
  globals_after (run_loop [pass "r"%string; pass "x"%string; pass "R"%string]) halted = halted /\
  log_actions (trace_of (run_loop [pass "r"%string; pass "x"%string; pass "R"%string]) halted) = 0%nat /\
  acquisitions (trace_of (run_loop [pass "r"%string; pass "x"%string; pass "R"%string]) halted) = 2%nat.
Proof.
  intros halted pass.
  apply (halted_passes_only_read_on_command [pass "r"%string; pass "x"%string; pass "R"%string] halted eq_refl).
  intros i [<- | [<- | [<- | []]]]; discriminate.
Defined.

(* ================================================================== *)
(** ** More on one pass *)

Lemma ulong_sub_elapsed (last d : Z) :
  0 <= d < 2 ^ 32 -> ulong_sub ((last + d) mod 2 ^ 32) last = d.
Proof.
  intros Hd. unfold ulong_sub.
  rewrite Zminus_mod_idemp_l.
  replace (last + d - last) with d by lia.
  apply Z.mod_small. exact Hd.
Qed.

(** X16.  The periodic trigger measures the time since the last reading
    correctly when [millis()] has wrapped around 2^32 in between: if [d]
    milliseconds (fewer than 2^32) have passed, a running pass reads exactly
    when [d] is at least 60000. *)
Theorem periodic_trigger_across_wrap :
  forall (i : Inputs) (g : Globals) (d : Z),
    isRunning (globals_after (loop_commands i) g) = true ->
    0 <= d < 2 ^ 32 ->
    millis_cond i = (lastReadingTime g + d) mod 2 ^ 32 ->
    (60000 <= d ->
       lastReadingTime (globals_after (loop i) g) = millis_assign i /\
       acquisitions (trace_of (loop i) g)
       = S (acquisitions (trace_of (loop_commands i) g))) /\
    (d < 60000 ->
       lastReadingTime (globals_after (loop i) g) = lastReadingTime g /\
       acquisitions (trace_of (loop i) g) = acquisitions (trace_of (loop_commands i) g)).
Proof.
  intros i g d Hrun Hd Hnow.
  destruct (loop_schedule i g) as [Hlast [Hacq _]].
  rewrite Hrun, Hnow, (ulong_sub_elapsed _ d Hd) in Hlast, Hacq.
  cbn [andb] in Hlast, Hacq. unfold readingInterval in Hlast, Hacq.
  split; intros Hcmp.
  - apply Z.leb_le in Hcmp. rewrite Hcmp in Hlast, Hacq.
    split; [ exact Hlast | rewrite Hacq; lia ].
  - apply Z.leb_gt in Hcmp. rewrite Hcmp in Hlast, Hacq.
    split; [ exact Hlast | rewrite Hacq; lia ].
Qed.

Lemma periodic_trigger_across_wrap_witness :
  let i := {| Serial_available := 0; Serial_readStringUntil := "";
              rtc_now := mkDateTime 12 30 0;
              millis_cond := 59000; millis_assign := 59001;
              adc_command := fun _ => 0; adc_periodic := fun _ => 500 |} in
  let g := {| lastReadingTime := 2 ^ 32 - 1000; isRunning := true;
              temperature := 25.0%f32 |} in
  lastReadingTime (globals_after (loop i) g) = 59001.
Proof.
  intros i g.
  apply (proj1 (periodic_trigger_across_wrap i g 60000 eq_refl ltac:(lia) eq_refl)).
  lia.
Defined.

Lemma loop_without_command (i : Inputs) (g : Globals) :
  globals_after (loop_commands i) g = g ->
  loop i g
  = (tt, globals_after (loop (without_command i)) g,
     trace_of (loop_commands i) g ++ trace_of (loop (without_command i)) g).
Proof.
  intros Hcmd.
  assert (Hidle : loop_commands (without_command i) g = (tt, g, []))
    by (apply loop_commands_idle; reflexivity).
  rewrite loop_run, loop_globals, loop_trace. cbv zeta.
  rewrite Hcmd.
  replace (globals_after (loop_commands (without_command i)) g) with g
    by (unfold globals_after; rewrite Hidle; reflexivity).
  replace (trace_of (loop_commands (without_command i)) g) with (@nil Event)
    by (unfold trace_of; rewrite Hidle; reflexivity).
  destruct (isRunning g); cbn [app]; [ | reflexivity ].
  unfold globals_after, trace_of. rewrite !loop_periodic_run. reflexivity.
Qed.

(** X17.  In a running pass at hour 10, minute 0, second 0 the console gets,
    after the output of the command and before the periodic reading, the
    announcement, the text "10:00:00 AM", and a pause of one second. *)
Theorem daily_log_text :
  forall (i : Inputs) (g : Globals),
    isRunning (globals_after (loop_commands i) g) = true ->
    at_ten (rtc_now i) ->
    trace_of (loop i) g
    = trace_of (loop_commands i) g
      ++ [ SerialPrint "Logging Sensor Values at: "; SerialPrintln "10:00:00 AM";
           Delay 1000 ]
      ++ trace_of (loop_periodic i) (globals_after (loop_commands i) g).
Proof.
  intros i g Hrun [Hh [Hm Hs]].
  rewrite loop_trace. cbv zeta. rewrite Hrun.
  unfold trace_of at 2. rewrite loop_daily_run. cbn [snd].
  rewrite Hh, Hm, Hs. reflexivity.
Qed.

Lemma daily_log_text_witness :
  let i := {| Serial_available := 0; Serial_readStringUntil := "";
              rtc_now := mkDateTime 10 0 0;
              millis_cond := 1000; millis_assign := 1000;
              adc_command := fun _ => 0; adc_periodic := fun _ => 0 |} in
  trace_of (loop i) initial
  = [ SerialPrint "Logging Sensor Values at: "; SerialPrintln "10:00:00 AM"; Delay 1000 ].
Proof.
  intros i.
  apply (daily_log_text i initial eq_refl).
  unfold at_ten. cbn. auto.
Defined.

(** X18.  A token that is none of "st", "s", "c", "r" and "R" is ignored:
    the pass does and prints exactly what it would with no input pending.
    The tokens other than "r" are case-sensitive, so "ST", "S" and "C" are
    ignored too. *)
Theorem unknown_token_ignored :
  forall (i : Inputs) (g : Globals) (command : string),
    command_token i = Some command ->
    ~ In command ["st"; "s"; "c"; "r"; "R"]%string ->
    loop i g = loop (without_command i) g.
Proof.
  intros i g command Hc Hnot.
  assert (Hcmd : loop_commands i g = (tt, g, [])).
  { rewrite loop_commands_run, Hc.
    destruct (command =? "st")%string eqn:E1.
    { apply String.eqb_eq in E1. exfalso. apply Hnot. subst. cbn. auto. }
    destruct (command =? "s")%string eqn:E2.
    { apply String.eqb_eq in E2. exfalso. apply Hnot. subst. cbn. auto. }
    destruct (command =? "c")%string eqn:E3.
    { apply String.eqb_eq in E3. exfalso. apply Hnot. subst. cbn. auto. }
    destruct (AString.equalsIgnoreCase command "r") eqn:E4; [ | reflexivity ].
    apply equalsIgnoreCase_r in E4. exfalso. apply Hnot.
    destruct E4; subst; cbn; auto 6. }
  rewrite loop_without_command by (unfold globals_after; rewrite Hcmd; reflexivity).
  unfold trace_of at 1. rewrite Hcmd. cbn [snd app].
  unfold globals_after, trace_of.
  destruct (loop (without_command i) g) as [[[] g'] t']. reflexivity.
Qed.

Lemma unknown_token_ignored_witness :
  let i := {| Serial_available := 3; Serial_readStringUntil := "ST";
              rtc_now := mkDateTime 12 30 0;
              millis_cond := 1000; millis_assign := 1000;
              adc_command := fun _ => 0; adc_periodic := fun _ => 0 |} in
  loop i initial = loop (without_command i) initial.
Proof.
  intros i.
  apply (unknown_token_ignored i initial "ST"%string eq_refl).
  cbn. intros [H | [H | [H | [H | [H | []]]]]]; discriminate H.
Defined.

(** X19.  The "c" command prints 50 lines of one space and nothing else; the
    pass then goes on exactly as it would with no input pending, with the
    same globals at its end. *)
Theorem clear_command_prints_fifty_lines :
  forall (i : Inputs) (g : Globals),
    command_token i = Some "c"%string ->
    loop i g
    = (tt, globals_after (loop (without_command i)) g,
       repeat (SerialPrintln " ") 50 ++ trace_of (loop (without_command i)) g).
Proof.
  intros i g Hc.
  assert (Hcmd : loop_commands i g = (tt, g, repeat (SerialPrintln " ") 50))
    by (rewrite loop_commands_run, Hc; reflexivity).
  rewrite loop_without_command by (unfold globals_after; rewrite Hcmd; reflexivity).
  unfold trace_of at 1. rewrite Hcmd. reflexivity.
Qed.

Lemma clear_command_prints_fifty_lines_witness :
  let i := {| Serial_available := 2; Serial_readStringUntil := "c";
              rtc_now := mkDateTime 12 30 0;
              millis_cond := 1000; millis_assign := 1000;
              adc_command := fun _ => 0; adc_periodic := fun _ => 0 |} in
  trace_of (loop i) initial = repeat (SerialPrintln " ") 50.
Proof.
  intros i.
  unfold trace_of. rewrite (clear_command_prints_fifty_lines i initial eq_refl).
  vm_compute. reflexivity.
Defined.

(** The labels and values named above are the ones a reading prints. *)
Lemma reading_trace_by_sample (analogRead : Pin -> Z) (g : Globals) :
  reading_trace analogRead g
  = [ SerialPrint "pH Value: "; SerialPrintlnFloat (pHValueOf (analogRead pH_PIN)) 2;
      SerialPrint "pH Quality: "; SerialPrintln (pHQualityOf (analogRead pH_PIN));
      MySerialPrintlnFloat (pHValueOf (analogRead pH_PIN)) 2;
      SerialPrint "Turbidity Voltage: ";
      SerialPrintlnFloat (voltageOf (analogRead turbidityPin) 1023.0%f32 5.0%f32) 2;
      SerialPrint "Turbidity Quality: "; SerialPrintln (turbQualityOf (analogRead turbidityPin));
      SerialPrint "TDS Value: ";
      SerialPrintlnFloat (value_of (calculateTDS (analogRead tdsPin)) g) 2;
      SerialPrint "TDS Quality: "; SerialPrintln (tdsQualityOf (analogRead tdsPin) g) ]
    ++ trace_of (evaluateOverallQuality (pHQualityOf (analogRead pH_PIN))
                   (turbQualityOf (analogRead turbidityPin))
                   (tdsQualityOf (analogRead tdsPin) g)) g.
Proof.
  unfold reading_trace, trace_of at 1. rewrite readAllSensors_run. reflexivity.
Qed.
